(** * SageMakerCore overview notebook: the boto3 cells and the deletion sweep

    A shallow embedding of the code cells of
    [sagemaker-core/sagemaker_core_overview.ipynb] that carry logic of their
    own:

    - "Create TrainingJob with Boto3" (one [create_training_job] request),
    - "Wait for TrainingJob with Boto3" (the [while True] poll loop),
    - "List TrainingJobs with NextToken" (the [while True] pagination loop),
    - [delete_all_sagemaker_resources] (the sweep over [locals()] and
      [globals()]).

    What the cells call and do not define is kept apart from them: the
    control plane answers from scripted sequences, [print] (the one of
    [rich]) is a parameter where a cell prints a text it did not choose,
    and the [wait] of the resource class, of which the notebook holds only
    the call, is taken from the specification.

    The two loops talk to a remote control plane and need not terminate, so
    they are written as interaction trees over the requests and outputs they
    issue ([ITree.iter] is the [while True], returning [inr] is the [break]).
    An executable, fuel-indexed runner gives them meaning against a control
    plane; every finite prefix of a run, and its log, can be computed. *)

From Stdlib Require Import String List ZArith Lia Bool Arith Morphisms
  Permutation.
From ITree Require Import ITree ITreeFacts Events.State Events.StateFacts.
From Paco Require Import paco.
Import ListNotations.
Import ITreeNotations.
Local Open Scope string_scope.
Local Open Scope list_scope.
Local Open Scope itree_scope.

(* ===================================================================== *)
(** * Python values the cells handle *)
(* ===================================================================== *)

(** [status in ["Failed", "Completed", "Stopped"]]: membership in a list of
    [str], by equality. *)
Definition py_in (x : string) (l : list string) : bool :=
  existsb (String.eqb x) l.

(** Truth value of a token that is [None] or a [str], as [if next_token:]
    and [if not next_token:] test it: [None] and the empty string are
    false, every other string is true. *)
Definition truthy (tok : option string) : bool :=
  match tok with
  | Some s => negb (s =? "")
  | None => false
  end.

(** The dict describing one training job: what [describe_training_job]
    returns and what [response["TrainingJobSummaries"]] holds.
    [TrainingJobName] and [TrainingJobStatus] are members the service model
    always fills; [FailureReason] is a key that may be missing. *)
Record training_job := {
  TrainingJobName : string;
  TrainingJobStatus : string;
  FailureReason : option string
}.

(** One page of [list_training_jobs]; [NextToken] is read with
    [response.get("NextToken")], so a missing key reads as [None]. *)
Record list_response := {
  TrainingJobSummaries : list training_job;
  NextToken : option string
}.

(** Keyword arguments of [create_training_job]. *)
Module CreateTrainingJob.

Record algorithm_specification := {
  TrainingImage : string;
  TrainingInputMode : string
}.

Record channel := {
  ChannelName : string;
  ContentType : string;
  S3DataType : string;
  S3Uri : string;
  S3DataDistributionType : string;
  CompressionType : string;
  RecordWrapperType : string
}.

Record resource_config := {
  InstanceType : string;
  InstanceCount : Z;
  VolumeSizeInGB : Z
}.

(** A keyword that Python lets the caller leave out is an [option]. *)
Record request := {
  TrainingJobName : string;
  HyperParameters : list (string * string);
  AlgorithmSpecification : option algorithm_specification;
  RoleArn : option string;
  InputDataConfig : list channel;
  OutputDataConfig : option string;      (* S3OutputPath *)
  ResourceConfig : option resource_config;
  StoppingCondition : option Z           (* MaxRuntimeInSeconds *)
}.

Record response := { TrainingJobArn : string }.

End CreateTrainingJob.

(** The default [end] of [print]. *)
Definition newline : string := String (Ascii.ascii_of_nat 10) EmptyString.

(** What [print] is handed: a [str], or the dict a request returned. *)
Inductive printable :=
| Str (s : string)
| Dict (d : CreateTrainingJob.response).

(** Exceptions: the one a missing dict key raises, the one the
    specification of the wait operation names, and the one [rich] raises on
    console markup it cannot parse. *)
Inductive exception :=
| KeyError (key : string)
| TimeoutError
| MarkupError.

(** How a cell ends: it runs to its last statement, or an exception leaves
    it. *)
Inductive outcome :=
| Returned
| Raised (e : exception).

(* ===================================================================== *)
(** * Requests and outputs of the cells *)
(* ===================================================================== *)

(** [client.create_training_job], [client.describe_training_job],
    [client.list_training_jobs] (its [NextToken] keyword is [None] when the
    call is made without it), [print(..., end=...)] and [time.sleep]. The
    notebook's [print] is the one of [rich] ([from rich import print]); the
    event carries what it is handed. *)
Variant notebookE : Type -> Type :=
| create_training_job (request : CreateTrainingJob.request)
  : notebookE CreateTrainingJob.response
| describe_training_job (TrainingJobName : string) : notebookE training_job
| list_training_jobs (CreationTimeAfter : Z) (NextToken : option string)
  : notebookE list_response
| print (objects : list printable) (end_ : string) : notebookE unit
| sleep (secs : Z) : notebookE unit.

(** [for x in l: body(x)]. *)
Fixpoint for_each {A : Type} (l : list A) (body : A -> itree notebookE unit)
  : itree notebookE unit :=
  match l with
  | [] => Ret tt
  | x :: l' => body x ;; for_each l' body
  end.

(* ===================================================================== *)
(** * The cells *)
(* ===================================================================== *)

(** ** Create TrainingJob with Boto3

    [image], [role], [s3_input_path] and [s3_output_path] are globals set by
    earlier cells; [job_name_boto] is ["xgboost-iris-"] followed by the
    formatted time of the call. *)
Section CreateCell.

Variables (image role s3_input_path s3_output_path : string).
Variable (gmtime : string).  (* time.strftime("%Y-%m-%d-%H-%M-%S", time.gmtime()) *)

Definition job_name_boto : string := ("xgboost-iris-" ++ gmtime)%string.

Definition create_request : CreateTrainingJob.request :=
  {| CreateTrainingJob.TrainingJobName := job_name_boto;
     CreateTrainingJob.HyperParameters :=
       [("objective", "multi:softmax"); ("num_class", "3");
        ("num_round", "10"); ("eval_metric", "merror")];
     CreateTrainingJob.AlgorithmSpecification :=
       Some {| CreateTrainingJob.TrainingImage := image;
               CreateTrainingJob.TrainingInputMode := "File" |};
     CreateTrainingJob.RoleArn := Some role;
     CreateTrainingJob.InputDataConfig :=
       [{| CreateTrainingJob.ChannelName := "train";
           CreateTrainingJob.ContentType := "csv";
           CreateTrainingJob.S3DataType := "S3Prefix";
           CreateTrainingJob.S3Uri := s3_input_path;
           CreateTrainingJob.S3DataDistributionType := "FullyReplicated";
           CreateTrainingJob.CompressionType := "None";
           CreateTrainingJob.RecordWrapperType := "None" |}];
     CreateTrainingJob.OutputDataConfig := Some s3_output_path;
     CreateTrainingJob.ResourceConfig :=
       Some {| CreateTrainingJob.InstanceType := "ml.m4.xlarge";
               CreateTrainingJob.InstanceCount := 1;
               CreateTrainingJob.VolumeSizeInGB := 30 |};
     CreateTrainingJob.StoppingCondition := Some 600%Z |}.

Definition create_training_job_boto3 : itree notebookE unit :=
  response <- ITree.trigger (create_training_job create_request) ;;
  ITree.trigger (print [Dict response] newline).

End CreateCell.

(** ** Wait for TrainingJob with Boto3

<<
    while True:
        response = client.describe_training_job(TrainingJobName=job_name_boto)
        status = response["TrainingJobStatus"]
        if status in ["Failed", "Completed", "Stopped"]:
            if status == "Failed":
                print(response["FailureReason"])
            break
        print("-", end="")
        time.sleep(5)
>>
    [response["FailureReason"]] on a dict without that key raises
    [KeyError], which leaves the cell. *)
Definition wait_for_training_job_boto3 (job_name_boto : string)
  : itree notebookE outcome :=
  ITree.iter (fun _ : unit =>
    response <- ITree.trigger (describe_training_job job_name_boto) ;;
    let status := TrainingJobStatus response in
    if py_in status ["Failed"; "Completed"; "Stopped"] then
      if status =? "Failed" then
        match FailureReason response with
        | Some reason =>
            ITree.trigger (print [Str reason] newline) ;;
            Ret (inr Returned)
        | None => Ret (inr (Raised (KeyError "FailureReason")))
        end
      else Ret (inr Returned)
    else
      ITree.trigger (print [Str "-"] "") ;;
      ITree.trigger (sleep 5) ;;
      Ret (inl tt)) tt.

(** ** List TrainingJobs with NextToken

<<
    next_token = None
    while True:
        if next_token:
            response = client.list_training_jobs(
                CreationTimeAfter=creation_time_after, NextToken=next_token)
        else:
            response = client.list_training_jobs(
                CreationTimeAfter=creation_time_after)
        for job in response["TrainingJobSummaries"]:
            print(job["TrainingJobName"], job["TrainingJobStatus"])
        next_token = response.get("NextToken")
        if not next_token:
            break
>>
    The loop variable of [ITree.iter] is [next_token].
    [creation_time_after] is a [datetime] computed before the loop (now
    minus one day); the loop only passes it on, so it is an opaque
    number here. *)
Definition print_job (job : training_job) : itree notebookE unit :=
  ITree.trigger
    (print [Str (TrainingJobName job); Str (TrainingJobStatus job)] newline).

(** The body of the [while True], entered with [next_token]: [inr tt] is
    the [break], [inl] carries the new [next_token] to the next round. *)
Definition list_training_jobs_round (creation_time_after : Z)
  (next_token : option string) : itree notebookE (option string + unit) :=
  response <-
    (if truthy next_token
     then ITree.trigger (list_training_jobs creation_time_after next_token)
     else ITree.trigger (list_training_jobs creation_time_after None)) ;;
  for_each (TrainingJobSummaries response) print_job ;;
  let next_token := NextToken response in
  if negb (truthy next_token) then Ret (inr tt) else Ret (inl next_token).

(** The loop from a round entered with [next_token]. *)
Definition list_training_jobs_from (creation_time_after : Z)
  (next_token : option string) : itree notebookE unit :=
  ITree.iter (list_training_jobs_round creation_time_after) next_token.

Definition list_training_jobs_with_next_token (creation_time_after : Z)
  : itree notebookE unit :=
  list_training_jobs_from creation_time_after None.

(* ===================================================================== *)
(** * Running a cell *)
(* ===================================================================== *)

(** A world answers each request or output and moves on. [None] as the
    answer means that the call does not return to the cell. *)
Definition handler (W : Type) : Type :=
  forall T : Type, notebookE T -> W -> W * option T.

(** [exec h fuel t w] runs [t] from [w] for at most [fuel] nodes of the
    tree. It returns the world reached and, when the cell has ended within
    the fuel, how it ended. *)
Fixpoint exec {W R : Type} (h : handler W) (fuel : nat)
  (t : itree notebookE R) (w : W) : W * option R :=
  match fuel with
  | 0 => (w, None)
  | S n =>
      match observe t with
      | RetF r => (w, Some r)
      | TauF t' => exec h n t' w
      | VisF e k =>
          match h _ e w with
          | (w', Some a) => exec h n (k a) w'
          | (w', None) => (w', None)
          end
      end
  end.

(** The same meaning in the library's terms: the handler as a state
    transformer over trees without events, where a call that does not
    return diverges silently. *)
Definition as_state {W : Type} (h : handler W)
  : notebookE ~> Monads.stateT W (itree void1) :=
  fun T e w =>
    match h T e w with
    | (w', Some a) => Ret (w', a)
    | (w', None) => ITree.spin
    end.

(** ** A scripted control plane

    The answers of the control plane are given in advance, one sequence per
    operation, finite or infinite. The n-th call of an operation gets the
    n-th element; when a finite sequence is used up the call does not
    return. *)
Inductive feed (A : Type) : Type :=
| Finite (l : list A)
| Infinite (f : nat -> A).

Arguments Finite {A} l.
Arguments Infinite {A} f.

Definition served {A : Type} (s : feed A) (n : nat) : option A :=
  match s with
  | Finite l => nth_error l n
  | Infinite f => Some (f n)
  end.

(** What the log records, in the order it happened: each request with the
    answer it got, each output. *)
Inductive io_event :=
| EvCreate (request : CreateTrainingJob.request)
    (answer : option CreateTrainingJob.response)
| EvDescribe (TrainingJobName : string) (answer : option training_job)
| EvList (CreationTimeAfter : Z) (NextToken : option string)
    (answer : option list_response)
| EvPrint (objects : list printable) (end_ : string)
| EvSleep (secs : Z).

Record world := {
  creations : feed CreateTrainingJob.response;
  snapshots : feed training_job;
  pages : feed list_response;
  n_create : nat;
  n_describe : nat;
  n_list : nat;
  log : list io_event
}.

Definition record (e : io_event) (w : world) : world :=
  {| creations := creations w; snapshots := snapshots w; pages := pages w;
     n_create := n_create w; n_describe := n_describe w; n_list := n_list w;
     log := log w ++ [e] |}.

(** The world after a request, answered from its sequence. *)
Definition created (request : CreateTrainingJob.request) (w : world) : world :=
  record (EvCreate request (served (creations w) (n_create w)))
    {| creations := creations w; snapshots := snapshots w; pages := pages w;
       n_create := S (n_create w); n_describe := n_describe w;
       n_list := n_list w; log := log w |}.

Definition described (name : string) (w : world) : world :=
  record (EvDescribe name (served (snapshots w) (n_describe w)))
    {| creations := creations w; snapshots := snapshots w; pages := pages w;
       n_create := n_create w; n_describe := S (n_describe w);
       n_list := n_list w; log := log w |}.

Definition listed (after : Z) (token : option string) (w : world) : world :=
  record (EvList after token (served (pages w) (n_list w)))
    {| creations := creations w; snapshots := snapshots w; pages := pages w;
       n_create := n_create w; n_describe := n_describe w;
       n_list := S (n_list w); log := log w |}.

(** The scripted control plane. Every [print] returns and is logged with
    what it was handed: this is the world for the outputs the cells make
    of fixed text, job names and statuses. What [rich] makes of a text it
    did not choose is the matter of [scripted_with] below. *)
Definition scripted : handler world :=
  fun T e w =>
    match e in notebookE T return world * option T with
    | create_training_job request =>
        (created request w, served (creations w) (n_create w))
    | describe_training_job name =>
        (described name w, served (snapshots w) (n_describe w))
    | list_training_jobs after token =>
        (listed after token w, served (pages w) (n_list w))
    | print objects end_ => (record (EvPrint objects end_) w, Some tt)
    | sleep secs => (record (EvSleep secs) w, Some tt)
    end.

(** The world before the first request. *)
Definition start (s : feed training_job) (p : feed list_response) : world :=
  {| creations := Finite []; snapshots := s; pages := p;
     n_create := 0; n_describe := 0; n_list := 0; log := [] |}.

(** ** Reading a log *)

Definition is_describe (e : io_event) : bool :=
  match e with EvDescribe _ _ => true | _ => false end.

Definition is_sleep (e : io_event) : bool :=
  match e with EvSleep _ => true | _ => false end.

(** A sleep that lets time pass. *)
Definition is_delay (e : io_event) : bool :=
  match e with EvSleep secs => (0 <? secs)%Z | _ => false end.

(** Seconds slept. *)
Fixpoint elapsed (l : list io_event) : Z :=
  match l with
  | [] => 0%Z
  | EvSleep secs :: l' => (secs + elapsed l')%Z
  | _ :: l' => elapsed l'
  end.

(** The snapshot the last [describe_training_job] returned. *)
Fixpoint last_snapshot (l : list io_event) : option training_job :=
  match l with
  | [] => None
  | EvDescribe _ answer :: l' =>
      match last_snapshot l' with
      | Some s => Some s
      | None => answer
      end
  | _ :: l' => last_snapshot l'
  end.

(** The (name, status) lines printed by the listing loop. *)
Fixpoint printed_jobs (l : list io_event) : list (string * string) :=
  match l with
  | [] => []
  | EvPrint [Str name; Str status] _ :: l' => (name, status) :: printed_jobs l'
  | _ :: l' => printed_jobs l'
  end.

(** [NextToken] keyword of each list call, and [NextToken] of each page
    received, in order. *)
Fixpoint tokens_sent (l : list io_event) : list (option string) :=
  match l with
  | [] => []
  | EvList _ token _ :: l' => token :: tokens_sent l'
  | _ :: l' => tokens_sent l'
  end.

Fixpoint tokens_received (l : list io_event) : list (option string) :=
  match l with
  | [] => []
  | EvList _ _ (Some page) :: l' => NextToken page :: tokens_received l'
  | _ :: l' => tokens_received l'
  end.

Definition terminal (job : training_job) : bool :=
  py_in (TrainingJobStatus job) ["Failed"; "Completed"; "Stopped"].

(** The wait loop polls again after the n-th snapshot: the snapshot arrives
    and its status is not terminal. *)
Definition polls_on (s : feed training_job) (n : nat) : bool :=
  match served s n with
  | Some job => negb (terminal job)
  | None => false
  end.

(** The listing loop asks for another page after the n-th one: the page
    arrives and its token is true. *)
Definition continues (p : feed list_response) (n : nat) : bool :=
  match served p n with
  | Some page => truthy (NextToken page)
  | None => false
  end.

(** The line the listing loop prints for a job. *)
Definition job_line (job : training_job) : string * string :=
  (TrainingJobName job, TrainingJobStatus job).

(** ** Worlds reached inside a round of a loop *)

Definition add_log (l : list io_event) (w : world) : world :=
  fold_left (fun w e => record e w) l w.

Definition ev_print_job (job : training_job) : io_event :=
  EvPrint [Str (TrainingJobName job); Str (TrainingJobStatus job)] newline.

(** The [NextToken] keyword the listing loop sends when its variable
    [next_token] holds [tok]. *)
Definition token_sent (tok : option string) : option string :=
  if truthy tok then tok else None.

(** How the wait loop leaves its last round, on the terminal snapshot
    [job]: what it prints after the describe call, and how the cell ends. *)
Definition wait_closing (job : training_job) : list io_event :=
  if TrainingJobStatus job =? "Failed" then
    match FailureReason job with
    | Some reason => [EvPrint [Str reason] newline]
    | None => []
    end
  else [].

Definition wait_result (job : training_job) : outcome :=
  if TrainingJobStatus job =? "Failed" then
    match FailureReason job with
    | Some _ => Returned
    | None => Raised (KeyError "FailureReason")
    end
  else Returned.

(** The world after one round of the wait loop that polls again. *)
Definition wait_round (name : string) (w : world) : world :=
  add_log [EvPrint [Str "-"] ""; EvSleep 5] (described name w).

(** The world after one round of the listing loop that receives [page]. *)
Definition list_round (after : Z) (tok : option string) (page : list_response)
  (w : world) : world :=
  add_log (List.map ev_print_job (TrainingJobSummaries page))
    (listed after (token_sent tok) w).

(** The world after [k] rounds of the wait loop that all poll again. *)
Fixpoint wait_rounds (name : string) (k : nat) (w : world) : world :=
  match k with
  | 0 => w
  | S k' => wait_rounds name k' (wait_round name w)
  end.

(** The world and the value of [next_token] after [k] rounds of the
    listing loop that all receive a page, and the nodes of the tree these
    rounds take. *)
Fixpoint list_rounds (after : Z) (k : nat) (tok : option string) (w : world)
  : world * option string :=
  match k with
  | 0 => (w, tok)
  | S k' =>
      match served (pages w) (n_list w) with
      | Some page =>
          list_rounds after k' (NextToken page) (list_round after tok page w)
      | None => (w, tok)
      end
  end.

Fixpoint list_cost (p : feed list_response) (from k : nat) : nat :=
  match k with
  | 0 => 0
  | S k' =>
      match served p from with
      | Some page =>
          2 + length (TrainingJobSummaries page) + list_cost p (S from) k'
      | None => 0
      end
  end.

(** The tokens of a log follow the protocol: no list call was made yet, or
    the first call carried no token and each later call carried the token
    of the page received just before it. *)
Definition in_protocol (l : list io_event) : Prop :=
  tokens_sent l = [] \/
  exists received rest,
    tokens_sent l = None :: received /\
    tokens_received l = received ++ rest.

(** The tokens agree with a round about to start with [next_token = tok]:
    the tokens sent so far, followed by [tok], are [None] followed by the
    tokens received so far; and [tok] is sent as it is. *)
Definition at_head (l : list io_event) (tok : option string) : Prop :=
  tokens_sent l ++ [tok] = None :: tokens_received l /\
  token_sent tok = tok.

(** What the wait loop for the job [name] can put in a log: describe
    calls for that job, prints, and sleeps of five seconds. *)
Definition wait_event (name : string) (e : io_event) : Prop :=
  match e with
  | EvDescribe n _ => n = name
  | EvPrint _ _ => True
  | EvSleep secs => secs = 5%Z
  | EvCreate _ _ | EvList _ _ _ => False
  end.

(** A watchdog over a log: [Polled] after a describe call that no delay
    has followed yet, [Busy] once two describe calls came with no delay
    between them. *)
Inductive pace := Rested | Polled | Busy.

Definition pace_step (st : pace) (e : io_event) : pace :=
  match st with
  | Busy => Busy
  | Rested => if is_describe e then Polled else Rested
  | Polled =>
      if is_describe e then Busy
      else if is_delay e then Rested else Polled
  end.

Definition pace_of (l : list io_event) : pace := fold_left pace_step l Rested.

(** ** Sample answers of the control plane *)

Definition in_progress : training_job :=
  {| TrainingJobName := "xgboost-iris";
     TrainingJobStatus := "InProgress";
     FailureReason := None |}.

Definition completed : training_job :=
  {| TrainingJobName := "xgboost-iris";
     TrainingJobStatus := "Completed";
     FailureReason := None |}.

Definition failed_with (reason : string) : training_job :=
  {| TrainingJobName := "xgboost-iris";
     TrainingJobStatus := "Failed";
     FailureReason := Some reason |}.

Definition summary (name status : string) : training_job :=
  {| TrainingJobName := name;
     TrainingJobStatus := status;
     FailureReason := None |}.

(** ** The notebook's [print]

    [print] is [rich.print], whose code is not part of the notebook. It
    reads the strings it is handed as console markup: what it writes can
    differ from its argument, and on markup it cannot parse (a closing tag
    such as [[/opt]] that closes nothing) it raises [MarkupError] and
    writes nothing. It is taken as a parameter: [rich objects end_] is the
    text written, or [None] when the call raises. *)
Definition renderer : Type := list printable -> string -> option string.

(** The scripted world, the texts written to the output of the cell, and
    the exception that left the cell from inside a call, if one did. *)
Record kernel := {
  plane : world;
  output : list string;
  raised : option exception
}.

Definition on_plane (p : world) (k : kernel) : kernel :=
  {| plane := p; output := output k; raised := raised k |}.

(** The scripted control plane with [rich] for [print]: a print that
    returns is logged and its text written; one that raises writes
    nothing, and the cell is left. *)
Definition scripted_with (rich : renderer) : handler kernel :=
  fun T e k =>
    match e in notebookE T return kernel * option T with
    | create_training_job request =>
        (on_plane (created request (plane k)) k,
         served (creations (plane k)) (n_create (plane k)))
    | describe_training_job name =>
        (on_plane (described name (plane k)) k,
         served (snapshots (plane k)) (n_describe (plane k)))
    | list_training_jobs after token =>
        (on_plane (listed after token (plane k)) k,
         served (pages (plane k)) (n_list (plane k)))
    | print objects end_ =>
        match rich objects end_ with
        | Some text =>
            ({| plane := record (EvPrint objects end_) (plane k);
                output := output k ++ [text];
                raised := raised k |}, Some tt)
        | None =>
            ({| plane := plane k; output := output k;
                raised := Some MarkupError |}, None)
        end
    | sleep secs => (on_plane (record (EvSleep secs) (plane k)) k, Some tt)
    end.

(** The kernel before the first request. *)
Definition boot (s : feed training_job) (p : feed list_response) : kernel :=
  {| plane := start s p; output := []; raised := None |}.



(** A stand-in for [rich] to run the cells with. It refuses a string that
    holds a closing tag and writes any other text as it is, objects
    separated by a space and followed by [end_]. *)
Fixpoint holds_closing_tag (s : string) : bool :=
  match s with
  | EmptyString => false
  | String _ s' => String.prefix "[/" s || holds_closing_tag s'
  end.

Definition text_of (o : printable) : string :=
  match o with
  | Str s => s
  | Dict d =>
      ("{'TrainingJobArn': '" ++ CreateTrainingJob.TrainingJobArn d ++ "'}")%string
  end.

Definition refusing_closing_tags : renderer :=
  fun objects end_ =>
    if existsb
         (fun o => match o with Str s => holds_closing_tag s | Dict _ => false end)
         objects
    then None
    else Some (String.concat " " (List.map text_of objects) ++ end_)%string.

(* ===================================================================== *)
(** * Sentences of the specification, as they are worded *)
(* ===================================================================== *)


(** "3 pages of 2/2/1 items yields exactly 5 items in page order, issuing
    exactly 3 underlying list calls", for any items and any cursors on the
    first two pages. *)
Definition lists_three_pages : Prop :=
  forall after s a b c d e c1 c2,
    let p := Finite
      [ {| TrainingJobSummaries := [a; b]; NextToken := Some c1 |};
        {| TrainingJobSummaries := [c; d]; NextToken := Some c2 |};
        {| TrainingJobSummaries := [e]; NextToken := None |} ] in
    exists fuel w,
      exec scripted fuel (list_training_jobs_with_next_token after)
        (start s p) = (w, Some tt) /\
      printed_jobs (log w) = List.map job_line [a; b; c; d; e] /\
      n_list w = 3.

(** No list call beyond call number [i] (counted from 0) is ever made. *)
Definition stops_after (after : Z) (s : feed training_job)
  (p : feed list_response) (i : nat) : Prop :=
  forall fuel,
    n_list (fst (exec scripted fuel (list_training_jobs_with_next_token after)
                   (start s p))) <= S i.

(** Call number [i] is made at some point. *)
Definition call_made (after : Z) (s : feed training_job)
  (p : feed list_response) (i : nat) : Prop :=
  exists fuel,
    i < n_list (fst (exec scripted fuel
                       (list_training_jobs_with_next_token after)
                       (start s p))).

(** "the first list call carries no cursor, every subsequent list call
    carries exactly the cursor returned by the immediately preceding
    response, and the loop stops requesting further pages precisely when a
    response carries no cursor", where the parameter says what it is for a
    token to be no cursor. *)
Definition cursor_protocol (no_cursor : option string -> Prop) : Prop :=
  forall after s p,
    (forall fuel,
       let l := log (fst (exec scripted fuel
                            (list_training_jobs_with_next_token after)
                            (start s p))) in
       hd None (tokens_sent l) = None /\
       forall i t,
         nth_error (tokens_sent l) (S i) = Some t ->
         nth_error (tokens_received l) i = Some t) /\
    (forall i page,
       served p i = Some page ->
       call_made after s p i ->
       (stops_after after s p i <-> no_cursor (NextToken page))).

(* ===================================================================== *)
(** * The control plane behind [create] and [get] *)
(* ===================================================================== *)

Module ControlPlane.

(** Classified failures of a request. *)
Inductive failure :=
| ValidationError
| NotFoundError
| ConflictError
| ThrottlingError
| TransportError.

(** Modelled from the spec: the remote control plane that serves
    [create_training_job] and [describe_training_job] is not part of the
    notebook. It is taken as the specification describes it: resources
    are named, remotely managed objects identified by a unique name;
    [create] fails with [ValidationError] when a required section of the
    creation specification is absent and otherwise makes the resource
    known under the name of the specification, returning a handle that is
    usable at once; [get] fetches the current snapshot of an existing
    resource by name and fails with [NotFoundError] when the name is
    unknown. A name that already identifies a resource cannot identify a
    second one: such a [create] is refused with [ConflictError]. *)
Definition resources : Type := list training_job.

(** Modelled from the spec: the handle [create] returns, with the fields
    the control plane returns synchronously. *)
Record handle := { name : string; arn : string }.

(** Modelled from the spec: "required sub-fields must be present". *)
Definition required_present (spec : CreateTrainingJob.request) : bool :=
  match CreateTrainingJob.AlgorithmSpecification spec,
        CreateTrainingJob.RoleArn spec,
        CreateTrainingJob.OutputDataConfig spec,
        CreateTrainingJob.ResourceConfig spec,
        CreateTrainingJob.StoppingCondition spec with
  | Some _, Some _, Some _, Some _, Some _ => true
  | _, _, _, _, _ => false
  end.

(** Modelled from the spec: a resource is identified by its name. *)
Definition lookup (n : string) (cp : resources) : option training_job :=
  List.find (fun job => TrainingJobName job =? n) cp.

(** Modelled from the spec: [get(name)], absent from the notebook,
    "fetches current full attribute snapshot for an existing resource by
    name. Fails with NotFoundError if the name is unknown". *)
Definition get (cp : resources) (n : string) : failure + training_job :=
  match lookup n cp with
  | Some job => inr job
  | None => inl NotFoundError
  end.

(** Modelled from the spec: [create(spec)], absent from the notebook,
    fails with [ValidationError] when a required section is missing,
    refuses with [ConflictError] a name that already identifies a resource,
    and otherwise registers the resource under the name of [spec] and
    returns its handle. *)
Definition create (cp : resources) (spec : CreateTrainingJob.request)
  : failure + (resources * handle) :=
  let n := CreateTrainingJob.TrainingJobName spec in
  if negb (required_present spec) then inl ValidationError
  else
    match lookup n cp with
    | Some _ => inl ConflictError
    | None =>
        inr (cp ++ [ {| TrainingJobName := n;
                        TrainingJobStatus := "InProgress";
                        FailureReason := None |} ],
             {| name := n; arn := ("training-job/" ++ n)%string |})
    end.

End ControlPlane.

(* ===================================================================== *)
(** * The [wait] of the resource class *)
(* ===================================================================== *)

Module TrainingJob.

(** Modelled from the spec: how [wait] ends. On a terminal status its
    result is the last snapshot, which holds the failure reason of a
    failed job; otherwise it fails with an error of the taxonomy. *)
Inductive result :=
| Terminal (last : training_job)
| Error (e : exception).

(** Modelled from the spec: "a timeout is configured and exceeded": there
    is a bound, and more seconds than the bound have been waited. *)
Definition exceeded (timeout : option Z) (waited : Z) : bool :=
  match timeout with
  | Some bound => (bound <? waited)%Z
  | None => false
  end.

(** Modelled from the spec: [training_job.wait()] is a method of the
    resource class of the SDK; the notebook calls it, without a timeout,
    and does not hold its code. It is taken as the specification describes
    [wait(handle, poll_interval, timeout?)]: a blocking loop that
    refreshes the handle and inspects the status; it ends when the status
    is terminal, with the last snapshot; if a timeout is configured and
    exceeded before a terminal status is reached, it fails with
    [TimeoutError]; a delay of [poll_interval] elapses between two polls.
    [poll] is one turn of the loop after [waited] seconds; the time waited
    is counted as the delays slept. *)
Definition poll (name : string) (poll_interval : Z) (timeout : option Z)
  (waited : Z) : itree notebookE (Z + result) :=
  snapshot <- ITree.trigger (describe_training_job name) ;;
  if terminal snapshot then Ret (inr (Terminal snapshot))
  else if exceeded timeout waited then Ret (inr (Error TimeoutError))
  else
    ITree.trigger (sleep poll_interval) ;;
    Ret (inl (waited + poll_interval)%Z).

(** Modelled from the spec: the loop of [wait], entered after [waited]
    seconds. *)
Definition wait_from (name : string) (poll_interval : Z) (timeout : option Z)
  (waited : Z) : itree notebookE result :=
  ITree.iter (poll name poll_interval timeout) waited.

(** Modelled from the spec: [wait(handle, poll_interval, timeout?)]. *)
Definition wait (name : string) (poll_interval : Z) (timeout : option Z)
  : itree notebookE result :=
  wait_from name poll_interval timeout 0%Z.

(** Modelled from the spec: the world after one turn of [wait] that polls
    again, and after [n] of them. *)
Definition turn (name : string) (poll_interval : Z) (w : world) : world :=
  add_log [EvSleep poll_interval] (described name w).

(** Modelled from the spec: the world after [n] turns of [wait] that all
    poll again. *)
Fixpoint turns (name : string) (poll_interval : Z) (n : nat) (w : world)
  : world :=
  match n with
  | 0 => w
  | S n' => turns name poll_interval n' (turn name poll_interval w)
  end.

End TrainingJob.

(* ===================================================================== *)
(** * The deletion sweep *)
(* ===================================================================== *)

Module Python.

(** What the sweep can tell about an object: which object it is, whether
    [hasattr(obj, "delete")] holds and what [obj.__class__.__module__]
    is. *)
Record object := {
  id : nat;
  has_delete : bool;
  class_module : string
}.

(** A dict of variable bindings, in insertion order. *)
Definition namespace : Type := list (string * object).

Definition values (ns : namespace) : list object := List.map snd ns.

(** The module's global bindings and the local bindings of the function
    calls in progress, innermost first. *)
Record interpreter := {
  module_globals : namespace;
  frames : list namespace
}.

Definition globals (st : interpreter) : namespace := module_globals st.

(** [locals()] is the innermost frame; at module level it is the module's
    namespace. *)
Definition locals (st : interpreter) : namespace :=
  match frames st with
  | f :: _ => f
  | [] => module_globals st
  end.

(** Calling a function: a new frame in which the parameters are bound to
    the arguments and nothing else is bound yet. *)
Definition call (arguments : namespace) (st : interpreter) : interpreter :=
  {| module_globals := module_globals st; frames := arguments :: frames st |}.

(** [for obj in l: obj.delete()], where [deletes obj] tells whether the
    call returns ([true]) or raises. The objects whose [delete()] was
    invoked, in order, and whether the loop ran to its end. *)
Fixpoint delete_each (deletes : object -> bool) (l : list object)
  : list object * bool :=
  match l with
  | [] => ([], true)
  | obj :: l' =>
      if deletes obj
      then let (invoked, ok) := delete_each deletes l' in (obj :: invoked, ok)
      else ([obj], false)
  end.

(** The body, evaluated in the frame of the call. The first statement
    reads [locals()] before it binds [all_objects]; the comprehension keeps
    the objects that have a [delete] attribute and whose class comes from
    [sagemaker_core.main.resources]. *)
Definition delete_all_sagemaker_resources_body (deletes : object -> bool)
  (st : interpreter) : list object * bool :=
  let all_objects := values (locals st) ++ values (globals st) in
  let deletable_objects :=
    filter (fun obj =>
              has_delete obj &&
              (class_module obj =? "sagemaker_core.main.resources"))
      all_objects in
  delete_each deletes deletable_objects.

(** [delete_all_sagemaker_resources()]: the function has no parameter. *)
Definition delete_all_sagemaker_resources (deletes : object -> bool)
  (st : interpreter) : list object * bool :=
  delete_all_sagemaker_resources_body deletes (call [] st).

(** [obj] is bound to a local variable of a call in progress. *)
Definition bound_locally (obj : object) (st : interpreter) : Prop :=
  exists f, In f (frames st) /\ In obj (values f).

End Python.

(* ===================================================================== *)
(** * The other cells *)
(* ===================================================================== *)

(** ** Prepare Data

    [iris_df = iris_df[["target"] + [col for col in iris_df.columns
    if col != "target"]]]: the list of column labels the frame is indexed
    with. *)
Definition reorder_columns (columns : list string) : list string :=
  ["target"] ++ filter (fun col => negb (col =? "target")) columns.

(** ** Upload Data

<<
    prefix = "DEMO-scikit-iris"
    if default_bucket_prefix:
        prefix = f"{default_bucket_prefix}/{prefix}"
    TRAIN_DATA = "train.csv"
    DATA_DIRECTORY = "data"
    train_input = sagemaker_session.upload_data(
        DATA_DIRECTORY, bucket=bucket,
        key_prefix="{}/{}".format(prefix, DATA_DIRECTORY))
    s3_input_path = "s3://{}/{}/data/{}".format(bucket, prefix, TRAIN_DATA)
    s3_output_path = "s3://{}/{}/output".format(bucket, prefix)
>>
    [default_bucket_prefix] is [None] or a [str]. *)
Module Upload.

(** What [{}] and an f-string field make of a value that is [None] or a
    [str]. *)
Definition str (o : option string) : string :=
  match o with
  | Some s => s
  | None => "None"
  end.

Definition TRAIN_DATA : string := "train.csv".

Definition DATA_DIRECTORY : string := "data".

Definition prefix (default_bucket_prefix : option string) : string :=
  if truthy default_bucket_prefix
  then (str default_bucket_prefix ++ "/" ++ "DEMO-scikit-iris")%string
  else "DEMO-scikit-iris".

(** The [key_prefix] handed to [upload_data]. *)
Definition key_prefix (default_bucket_prefix : option string) : string :=
  (prefix default_bucket_prefix ++ "/" ++ DATA_DIRECTORY)%string.

Definition s3_input_path (bucket : string)
  (default_bucket_prefix : option string) : string :=
  ("s3://" ++ bucket ++ "/" ++ prefix default_bucket_prefix ++ "/data/"
   ++ TRAIN_DATA)%string.

Definition s3_output_path (bucket : string)
  (default_bucket_prefix : option string) : string :=
  ("s3://" ++ bucket ++ "/" ++ prefix default_bucket_prefix
   ++ "/output")%string.

End Upload.

(** ** List TrainingJobs with Boto3 Paginator

<<
    for response in paginator.paginate(CreationTimeAfter=creation_time_after):
        for job in response["TrainingJobSummaries"]:
            print(job["TrainingJobName"], job["TrainingJobStatus"])
>>
    The paginator belongs to boto3; [responses] are the pages it yields. *)
Definition list_training_jobs_with_paginator (responses : list list_response)
  : itree notebookE unit :=
  for_each responses (fun response =>
    for_each (TrainingJobSummaries response) print_job).

(** ** The create cell followed by the wait cell

    Both cells read the global [job_name_boto], set once by the create
    cell. *)
Definition create_then_wait (image role s3_input_path s3_output_path : string)
  (gmtime : string) : itree notebookE outcome :=
  create_training_job_boto3 image role s3_input_path s3_output_path gmtime ;;
  wait_for_training_job_boto3 (job_name_boto gmtime).

(** ** Reading a log, continued *)

(** What one round of the wait loop that polls again logs. *)
Definition wait_round_events (name : string) (snap : training_job)
  : list io_event :=
  [EvDescribe name (Some snap); EvPrint [Str "-"] ""; EvSleep 5].

(** [print("-", end="")]. *)
Definition is_dash (e : io_event) : bool :=
  match e with
  | EvPrint [Str s] end_ => (s =? "-") && (end_ =? "")
  | _ => false
  end.

(** The dashes printed. *)
Definition dashes (l : list io_event) : nat := length (filter is_dash l).

(** The pages the list calls returned, in order. *)
Fixpoint pages_received (l : list io_event) : list list_response :=
  match l with
  | [] => []
  | EvList _ _ (Some page) :: l' => page :: pages_received l'
  | _ :: l' => pages_received l'
  end.

(** The jobs of some pages, page after page. *)
Definition jobs_of (responses : list list_response) : list training_job :=
  flat_map TrainingJobSummaries responses.

(** What the listing loop logs from a round entered with [tok] on, when
    the pages [responses] arrive one after the other. *)
Fixpoint list_log (after : Z) (tok : option string)
  (responses : list list_response) : list io_event :=
  match responses with
  | [] => []
  | page :: rest =>
      EvList after (token_sent tok) (Some page)
        :: List.map ev_print_job (TrainingJobSummaries page)
        ++ list_log after (NextToken page) rest
  end.

(** What the listing loop for [after] can put in a log: list calls with
    that [CreationTimeAfter] and with no token or a non-empty one, and
    lines of two strings. *)
Definition list_event (after : Z) (e : io_event) : Prop :=
  match e with
  | EvList a tok _ => a = after /\ (tok = None \/ exists t, tok = Some t /\ t <> "")
  | EvPrint [Str _; Str _] end_ => end_ = newline
  | _ => False
  end.

(* ===================================================================== *)
(** * The runner *)
(* ===================================================================== *)

Section Runner.

Context {W : Type} (h : handler W).

(** The runner looks at a tree only through [observe]: bisimilar trees
    run alike, so the equations of the library ([unfold_iter],
    [bind_bind], [bind_trigger], ...) rewrite under [exec]. *)
#[global] Instance exec_eq_itree {R : Type} (fuel : nat) :
  Proper (eq_itree eq ==> eq ==> eq) (@exec W R h fuel).
Proof.
  induction fuel as [|n IH]; intros t t' Ht w w' <-; [reflexivity|].
  cbn. punfold Ht. red in Ht.
  destruct Ht; try discriminate; subst.
  - reflexivity.
  - apply IH; [|reflexivity]. pclearbot. exact REL.
  - destruct (h _ e w) as [w1 [a|]]; [|reflexivity].
    apply IH; [|reflexivity]. specialize (REL a). pclearbot. exact REL.
Qed.

Lemma exec_0 {R : Type} (t : itree notebookE R) (w : W) :
  exec h 0 t w = (w, None).
Proof. reflexivity. Qed.

Lemma exec_ret {R : Type} (n : nat) (r : R) (w : W) :
  exec h (S n) (Ret r) w = (w, Some r).
Proof. reflexivity. Qed.

Lemma exec_tau {R : Type} (n : nat) (t : itree notebookE R) (w : W) :
  exec h (S n) (Tau t) w = exec h n t w.
Proof. reflexivity. Qed.

Lemma exec_vis {R T : Type} (n : nat) (e : notebookE T)
  (k : T -> itree notebookE R) (w : W) :
  exec h (S n) (Vis e k) w =
  match h _ e w with
  | (w', Some a) => exec h n (k a) w'
  | (w', None) => (w', None)
  end.
Proof. reflexivity. Qed.

Lemma exec_trigger {R T : Type} (n : nat) (e : notebookE T)
  (k : T -> itree notebookE R) (w : W) :
  exec h (S n) (ITree.bind (ITree.trigger e) k) w =
  match h _ e w with
  | (w', Some a) => exec h n (k a) w'
  | (w', None) => (w', None)
  end.
Proof. rewrite bind_trigger. apply exec_vis. Qed.

(** A run that has ended is not changed by more fuel. *)
Lemma exec_mono {R : Type} (n : nat) :
  forall (t : itree notebookE R) (w w' : W) (r : R),
    exec h n t w = (w', Some r) ->
    forall m, n <= m -> exec h m t w = (w', Some r).
Proof.
  induction n as [|n IH]; intros t w w' r H m Hm; [discriminate|].
  destruct m as [|m]; [lia|].
  cbn in *. destruct (observe t) as [r0|t0|T e k].
  - exact H.
  - apply IH; [exact H | lia].
  - destruct (h _ e w) as [w1 [a|]]; [|discriminate].
    apply IH; [exact H | lia].
Qed.

(** A cell ends in one way only. *)
Lemma exec_deterministic {R : Type} (t : itree notebookE R) (w : W)
  (n1 n2 : nat) (w1 w2 : W) (r1 r2 : R) :
  exec h n1 t w = (w1, Some r1) ->
  exec h n2 t w = (w2, Some r2) ->
  w1 = w2 /\ r1 = r2.
Proof.
  intros H1 H2.
  apply exec_mono with (m := n1 + n2) in H1; [|lia].
  apply exec_mono with (m := n1 + n2) in H2; [|lia].
  rewrite H1 in H2. injection H2 as -> ->. split; reflexivity.
Qed.

(** The runner agrees with the library's interpreter: a cell that ends
    under [exec] is, interpreted with [interp_state], a tree that returns
    the same world and result. *)
Lemma exec_interp_state {R : Type} (fuel : nat) :
  forall (t : itree notebookE R) (w w' : W) (r : R),
    exec h fuel t w = (w', Some r) ->
    interp_state (as_state h) t w ≈ Ret (w', r).
Proof.
  induction fuel as [|n IH]; intros t w w' r H; [discriminate|].
  rewrite (itree_eta t). unfold exec in H. fold (@exec W R) in H.
  destruct (observe t) as [r0|t0|T e k].
  - injection H as <- <-. rewrite interp_state_ret. reflexivity.
  - rewrite interp_state_tau, tau_eutt. apply IH. exact H.
  - rewrite interp_state_vis. unfold as_state at 1.
    destruct (h T e w) as [w1 [a|]]; [|discriminate].
    rewrite bind_ret_l. cbn. rewrite tau_eutt. apply IH. exact H.
Qed.

(** A quantity that no request or output decreases does not decrease
    along a run, and it is larger the longer the run. *)
Section Measure.

Variable mu : W -> nat.
Hypothesis mu_step :
  forall (T : Type) (e : notebookE T) (w : W), mu w <= mu (fst (h _ e w)).

Lemma exec_grows {R : Type} (n : nat) :
  forall (t : itree notebookE R) (w : W),
    mu w <= mu (fst (exec h n t w)).
Proof.
  induction n as [|n IH]; intros t w; cbn; [lia|].
  destruct (observe t) as [r0|t0|T e k]; cbn; [lia|apply IH|].
  pose proof (mu_step _ e w) as Hs.
  destruct (h _ e w) as [w1 [a|]]; cbn in *; [|lia].
  specialize (IH (k a) w1). lia.
Qed.

Lemma exec_grows_with_fuel {R : Type} (n : nat) :
  forall (t : itree notebookE R) (w : W) (m : nat),
    n <= m ->
    mu (fst (exec h n t w)) <= mu (fst (exec h m t w)).
Proof.
  induction n as [|n IH]; intros t w m Hm.
  - apply exec_grows.
  - destruct m as [|m]; [lia|]. cbn.
    destruct (observe t) as [r0|t0|T e k]; [lia|apply IH; lia|].
    destruct (h _ e w) as [w1 [a|]]; [apply IH; lia|lia].
Qed.

Lemma exec_bounded_by_end {R : Type} (n : nat) (t : itree notebookE R)
  (w w' : W) (r : R) :
  exec h n t w = (w', Some r) ->
  forall m, mu (fst (exec h m t w)) <= mu w'.
Proof.
  intros H m. destruct (le_lt_dec n m) as [Hle|Hlt].
  - rewrite (exec_mono n t w w' r H m Hle). cbn. lia.
  - pose proof (exec_grows_with_fuel m t w n ltac:(lia)) as Hg.
    rewrite H in Hg. exact Hg.
Qed.

End Measure.

End Runner.

Arguments exec : simpl never.

(** One request or output of a cell, answered by the scripted world. *)
Ltac answer := rewrite exec_trigger; cbn [scripted].

(* ===================================================================== *)
(** * The wait loop, round by round *)
(* ===================================================================== *)

Section WaitLoop.

Variable job_name : string.

#[local] Abbreviation wait := (wait_for_training_job_boto3 job_name).

(** The describe call does not return. *)
Lemma wait_blocked (f : nat) (w : world) :
  served (snapshots w) (n_describe w) = None ->
  exec scripted (S f) wait w = (described job_name w, None).
Proof.
  intros Hs. unfold wait_for_training_job_boto3.
  rewrite unfold_iter, bind_bind, exec_trigger.
  cbn [scripted]. rewrite Hs. reflexivity.
Qed.

(** The snapshot is terminal: the loop prints the failure reason, if
    that is what the status asks for, and ends. *)
Lemma wait_stop (f : nat) (w : world) (snap : training_job) :
  served (snapshots w) (n_describe w) = Some snap ->
  terminal snap = true ->
  exec scripted (S f) wait w =
  if (f <=? length (wait_closing snap))%nat
  then (add_log (firstn f (wait_closing snap)) (described job_name w), None)
  else (add_log (wait_closing snap) (described job_name w),
        Some (wait_result snap)).
Proof.
  intros Hs Ht. unfold wait_for_training_job_boto3.
  rewrite unfold_iter, bind_bind, exec_trigger.
  cbn [scripted]. rewrite Hs.
  unfold terminal in Ht. cbv zeta. rewrite Ht.
  unfold wait_closing, wait_result.
  destruct (TrainingJobStatus snap =? "Failed").
  - destruct (FailureReason snap) as [reason|].
    + rewrite bind_bind. destruct f as [|f]; [reflexivity|].
      answer. rewrite !bind_ret_l.
      destruct f as [|f]; reflexivity.
    + rewrite bind_ret_l. destruct f as [|f]; reflexivity.
  - rewrite bind_ret_l. destruct f as [|f]; reflexivity.
Qed.

(** The snapshot is not terminal: a dash, five seconds of sleep, and the
    loop starts over. *)
Lemma wait_poll (f : nat) (w : world) (snap : training_job) :
  served (snapshots w) (n_describe w) = Some snap ->
  terminal snap = false ->
  exec scripted (S f) wait w =
  exec scripted (f - 3) wait
    (add_log (firstn f [EvPrint [Str "-"] ""; EvSleep 5])
       (described job_name w)).
Proof.
  intros Hs Ht. unfold wait_for_training_job_boto3 at 1.
  rewrite unfold_iter, bind_bind, exec_trigger.
  cbn [scripted]. rewrite Hs.
  unfold terminal in Ht. cbv zeta. rewrite Ht.
  rewrite bind_bind. destruct f as [|f]; [reflexivity|].
  answer. rewrite bind_bind.
  destruct f as [|f]; [reflexivity|].
  answer. rewrite bind_ret_l.
  destruct f as [|f]; [reflexivity|].
  rewrite exec_tau. cbn [Nat.sub]. rewrite Nat.sub_0_r. reflexivity.
Qed.

End WaitLoop.

(* ===================================================================== *)
(** * Worlds and logs *)
(* ===================================================================== *)

Lemma add_log_spec (l : list io_event) :
  forall w,
    add_log l w =
    {| creations := creations w; snapshots := snapshots w; pages := pages w;
       n_create := n_create w; n_describe := n_describe w;
       n_list := n_list w; log := log w ++ l |}.
Proof.
  induction l as [|e l IH]; intros w.
  - destruct w; cbn. rewrite app_nil_r. reflexivity.
  - cbn [add_log fold_left]. fold (add_log l (record e w)).
    rewrite IH. cbn. rewrite <- app_assoc. reflexivity.
Qed.

Lemma in_firstn {A : Type} (x : A) (n : nat) :
  forall l, In x (firstn n l) -> In x l.
Proof.
  induction n as [|n IH]; intros [|y l]; cbn; try tauto.
  intros [->|H]; [left; reflexivity|right; apply IH; exact H].
Qed.

Lemma add_log_app (l1 l2 : list io_event) (w : world) :
  add_log (l1 ++ l2) w = add_log l2 (add_log l1 w).
Proof. unfold add_log. apply fold_left_app. Qed.

Lemma last_snapshot_app (l1 l2 : list io_event) :
  last_snapshot (l1 ++ l2) =
  match last_snapshot l2 with
  | Some s => Some s
  | None => last_snapshot l1
  end.
Proof.
  induction l1 as [|e l1 IH]; cbn.
  - destruct (last_snapshot l2); reflexivity.
  - destruct e; try exact IH.
    rewrite IH. destruct (last_snapshot l2); reflexivity.
Qed.

Lemma elapsed_app (l1 l2 : list io_event) :
  elapsed (l1 ++ l2) = (elapsed l1 + elapsed l2)%Z.
Proof.
  induction l1 as [|e l1 IH]; cbn; [reflexivity|].
  destruct e; try exact IH. rewrite IH. lia.
Qed.

Lemma wait_closing_quiet (snap : training_job) :
  forall e, In e (wait_closing snap) -> is_describe e = false /\ is_sleep e = false.
Proof.
  intros e. unfold wait_closing.
  destruct (TrainingJobStatus snap =? "Failed"); [|intros []].
  destruct (FailureReason snap); [|intros []].
  intros [<-|[]]. split; reflexivity.
Qed.

Lemma last_snapshot_closing (snap : training_job) :
  last_snapshot (wait_closing snap) = None.
Proof.
  unfold wait_closing.
  destruct (TrainingJobStatus snap =? "Failed"); [|reflexivity].
  destruct (FailureReason snap); reflexivity.
Qed.

(** A sequence of answers has no gaps. *)
Lemma served_prefix {A : Type} (s : feed A) (n m : nat) (x : A) :
  served s n = Some x -> m < n -> exists y, served s m = Some y.
Proof.
  destruct s as [l|f]; cbn; intros Hn Hm.
  - destruct (nth_error l m) as [y|] eqn:E; [exists y; reflexivity|].
    apply nth_error_None in E.
    assert (nth_error l n <> None) as Hlen by congruence.
    apply nth_error_Some in Hlen. lia.
  - exists (f m). reflexivity.
Qed.

(** Below a bound, a test holds everywhere or has a first failure. *)
Lemma all_or_first_failure (P : nat -> bool) (n : nat) :
  (forall j, j < n -> P j = true) \/
  (exists m, m < n /\ P m = false /\ forall j, j < m -> P j = true).
Proof.
  induction n as [|n [IH|(m & Hm & Hp & Hbelow)]].
  - left. intros j Hj. lia.
  - destruct (P n) eqn:E.
    + left. intros j Hj.
      destruct (Nat.eq_dec j n) as [->|Hne]; [exact E|apply IH; lia].
    + right. exists n. repeat split; [lia|exact E|exact IH].
  - right. exists m. repeat split; [lia|exact Hp|exact Hbelow].
Qed.

(** The first terminal snapshot of a sequence that has one. *)
Lemma first_terminal (s : feed training_job) (n : nat) :
  forall snap,
    served s n = Some snap -> terminal snap = true ->
    exists k snap',
      served s k = Some snap' /\ terminal snap' = true /\
      forall j, j < k -> polls_on s j = true.
Proof.
  induction n as [n IH] using lt_wf_ind. intros snap Hs Ht.
  destruct (all_or_first_failure (polls_on s) n) as [Hall|(m & Hm & Hp & _)].
  - exists n, snap. repeat split; assumption.
  - destruct (served_prefix s n m snap Hs Hm) as (y & Hy).
    unfold polls_on in Hp. rewrite Hy in Hp.
    apply negb_false_iff in Hp.
    exact (IH m Hm y Hy Hp).
Qed.

(* ===================================================================== *)
(** * Runs of the wait loop *)
(* ===================================================================== *)

Section WaitRuns.

Variable job_name : string.

#[local] Abbreviation wait := (wait_for_training_job_boto3 job_name).

Lemma wait_round_fields (w : world) :
  snapshots (wait_round job_name w) = snapshots w /\
  pages (wait_round job_name w) = pages w /\
  n_describe (wait_round job_name w) = S (n_describe w) /\
  n_list (wait_round job_name w) = n_list w /\
  log (wait_round job_name w) =
    log w ++ [EvDescribe job_name (served (snapshots w) (n_describe w));
              EvPrint [Str "-"] ""; EvSleep 5].
Proof.
  unfold wait_round. rewrite add_log_spec. cbn.
  rewrite <- app_assoc. repeat split; reflexivity.
Qed.

Lemma wait_rounds_fields (k : nat) :
  forall w,
    snapshots (wait_rounds job_name k w) = snapshots w /\
    pages (wait_rounds job_name k w) = pages w /\
    n_describe (wait_rounds job_name k w) = n_describe w + k /\
    n_list (wait_rounds job_name k w) = n_list w /\
    elapsed (log (wait_rounds job_name k w)) =
      (elapsed (log w) + 5 * Z.of_nat k)%Z.
Proof.
  induction k as [|k IH]; intros w; cbn [wait_rounds].
  - repeat split; try reflexivity; lia.
  - destruct (IH (wait_round job_name w)) as (-> & -> & -> & -> & ->).
    destruct (wait_round_fields w) as (-> & -> & -> & -> & ->).
    rewrite elapsed_app. cbn [elapsed].
    repeat split; try reflexivity; lia.
Qed.

(** [k] rounds that poll again cost four nodes each. *)
Lemma wait_polls (k : nat) :
  forall w,
    (forall j, j < k -> polls_on (snapshots w) (n_describe w + j) = true) ->
    forall fuel,
      exec scripted (4 * k + fuel) wait w =
      exec scripted fuel wait (wait_rounds job_name k w).
Proof.
  induction k as [|k IH]; intros w Hpoll fuel; [reflexivity|].
  pose proof (Hpoll 0 ltac:(lia)) as H0. rewrite Nat.add_0_r in H0.
  unfold polls_on in H0.
  destruct (served (snapshots w) (n_describe w)) as [snap|] eqn:Hs;
    [|discriminate].
  apply negb_true_iff in H0.
  replace (4 * S k + fuel) with (S (3 + (4 * k + fuel))) by lia.
  rewrite (wait_poll job_name _ w snap Hs H0).
  replace (3 + (4 * k + fuel) - 3) with (4 * k + fuel) by lia.
  cbn [firstn plus]. fold (wait_round job_name w).
  cbn [wait_rounds]. apply IH.
  intros j Hj. destruct (wait_round_fields w) as (-> & _ & -> & _).
  replace (S (n_describe w) + j) with (n_describe w + S j) by lia.
  apply Hpoll. lia.
Qed.

(** A run that has ended went through some rounds that poll again and
    then met a terminal snapshot, and nothing else happened. *)
Lemma wait_ends_inv (fuel : nat) :
  forall w w' r,
    exec scripted fuel wait w = (w', Some r) ->
    exists k snap,
      (forall j, j < k ->
                 polls_on (snapshots w) (n_describe w + j) = true) /\
      served (snapshots w) (n_describe w + k) = Some snap /\
      terminal snap = true /\
      w' = add_log (wait_closing snap)
             (described job_name (wait_rounds job_name k w)) /\
      r = wait_result snap.
Proof.
  induction fuel as [fuel IH] using lt_wf_ind. intros w w' r H.
  destruct fuel as [|f]; [discriminate|].
  destruct (served (snapshots w) (n_describe w)) as [snap|] eqn:Hs.
  2:{ rewrite (wait_blocked job_name f w Hs) in H. discriminate. }
  destruct (terminal snap) eqn:Ht.
  - rewrite (wait_stop job_name f w snap Hs Ht) in H.
    destruct (f <=? length (wait_closing snap))%nat; [discriminate|].
    injection H as <- <-.
    exists 0, snap. rewrite Nat.add_0_r.
    repeat split; try assumption. intros j Hj. lia.
  - rewrite (wait_poll job_name f w snap Hs Ht) in H.
    destruct f as [|[|[|f]]]; try discriminate.
    cbn [firstn Nat.sub] in H. fold (wait_round job_name w) in H.
    rewrite Nat.sub_0_r in H.
    apply IH in H; [|lia].
    destruct H as (k & snap' & Hpoll & Hs' & Ht' & -> & ->).
    destruct (wait_round_fields w) as (E1 & _ & E2 & _).
    rewrite E1, E2 in Hpoll, Hs'.
    exists (S k), snap'. repeat split; try assumption.
    + intros [|j] Hj.
      * rewrite Nat.add_0_r. unfold polls_on. rewrite Hs, Ht. reflexivity.
      * replace (n_describe w + S j) with (S (n_describe w) + j) by lia.
        apply Hpoll. lia.
    + replace (n_describe w + S k) with (S (n_describe w) + k) by lia.
      exact Hs'.
Qed.

(** A terminal snapshot after [k] rounds that poll again ends the run. *)
Lemma wait_ends (k : nat) (w : world) (snap : training_job) :
  (forall j, j < k -> polls_on (snapshots w) (n_describe w + j) = true) ->
  served (snapshots w) (n_describe w + k) = Some snap ->
  terminal snap = true ->
  forall fuel,
    4 * k + 3 <= fuel ->
    exec scripted fuel wait w =
    (add_log (wait_closing snap)
       (described job_name (wait_rounds job_name k w)),
     Some (wait_result snap)).
Proof.
  intros Hpoll Hs Ht fuel Hfuel.
  apply exec_mono with (n := 4 * k + 3); [|exact Hfuel].
  rewrite (wait_polls k w Hpoll).
  destruct (wait_rounds_fields k w) as (E1 & _ & E2 & _).
  rewrite <- E1, <- E2 in Hs.
  rewrite (wait_stop job_name _ _ snap Hs Ht).
  replace (2 <=? length (wait_closing snap))%nat with false; [reflexivity|].
  symmetry. apply Nat.leb_gt. unfold wait_closing.
  destruct (TrainingJobStatus snap =? "Failed"); [|cbn; lia].
  destruct (FailureReason snap); cbn; lia.
Qed.

End WaitRuns.

Lemma scripted_n_describe (T : Type) (e : notebookE T) (w : world) :
  n_describe w <= n_describe (fst (scripted T e w)).
Proof. destruct e; cbn; lia. Qed.

Lemma scripted_n_list (T : Type) (e : notebookE T) (w : world) :
  n_list w <= n_list (fst (scripted T e w)).
Proof. destruct e; cbn; lia. Qed.

(* ===================================================================== *)
(** * The watchdog *)
(* ===================================================================== *)

Lemma pace_of_app (l1 l2 : list io_event) :
  pace_of (l1 ++ l2) = fold_left pace_step l2 (pace_of l1).
Proof. unfold pace_of. apply fold_left_app. Qed.

Lemma pace_busy (l : list io_event) : fold_left pace_step l Busy = Busy.
Proof. induction l as [|e l IH]; [reflexivity|exact IH]. Qed.

Lemma pace_without_delay (l : list io_event) :
  forall st,
    st <> Rested ->
    (forall e, In e l -> is_delay e = false) ->
    fold_left pace_step l st <> Rested.
Proof.
  induction l as [|e l IH]; intros st Hst Hl; [exact Hst|].
  cbn [fold_left]. apply IH.
  - destruct st; cbn; [congruence| |discriminate].
    destruct (is_describe e); [discriminate|].
    rewrite (Hl e (or_introl eq_refl)). discriminate.
  - intros e' He'. apply Hl. right. exact He'.
Qed.

(** The watchdog is right: if it has not seen a busy loop, a delay lies
    between any two describe calls of the log. *)
Lemma pace_sound (l : list io_event) :
  pace_of l <> Busy ->
  forall pre d1 mid d2 post,
    l = pre ++ d1 :: mid ++ d2 :: post ->
    is_describe d1 = true ->
    is_describe d2 = true ->
    exists secs, In (EvSleep secs) mid /\ (0 < secs)%Z.
Proof.
  intros Hpace pre d1 mid d2 post -> H1 H2.
  destruct (existsb is_delay mid) eqn:E.
  - apply existsb_exists in E as (e & Hin & He).
    destruct e; try discriminate.
    exists secs. split; [exact Hin|]. apply Z.ltb_lt. exact He.
  - exfalso. apply Hpace.
    rewrite pace_of_app. cbn [fold_left].
    rewrite fold_left_app. cbn [fold_left].
    assert (pace_step (pace_of pre) d1 <> Rested) as Hd1.
    { destruct (pace_of pre); cbn; rewrite ?H1; discriminate. }
    assert (fold_left pace_step mid (pace_step (pace_of pre) d1) <> Rested)
      as Hmid.
    { apply pace_without_delay; [exact Hd1|].
      intros e He. destruct (is_delay e) eqn:De; [|reflexivity].
      assert (existsb is_delay mid = true) as Habs; [|congruence].
      apply existsb_exists. exists e. split; assumption. }
    destruct (fold_left pace_step mid (pace_step (pace_of pre) d1));
      [congruence| |]; cbn; rewrite ?H2; apply pace_busy.
Qed.

(** The wait loop never makes the watchdog bark. *)
Lemma wait_pace (job_name : string) (fuel : nat) :
  forall w,
    pace_of (log w) = Rested ->
    pace_of (log (fst (exec scripted fuel
                         (wait_for_training_job_boto3 job_name) w)))
      <> Busy.
Proof.
  induction fuel as [fuel IH] using lt_wf_ind. intros w Hw.
  destruct fuel as [|f]; [rewrite exec_0; cbn; congruence|].
  assert (pace_of (log (described job_name w)) = Polled) as Hd.
  { unfold described, record. cbn [log].
    rewrite pace_of_app, Hw. reflexivity. }
  destruct (served (snapshots w) (n_describe w)) as [snap|] eqn:Hs.
  2:{ rewrite (wait_blocked job_name f w Hs). cbn [fst]. congruence. }
  destruct (terminal snap) eqn:Ht.
  - rewrite (wait_stop job_name f w snap Hs Ht).
    assert (forall l, (forall e, In e l -> In e (wait_closing snap)) ->
              pace_of (log (add_log l (described job_name w))) <> Busy)
      as Hquiet.
    { intros l Hl. rewrite add_log_spec. cbn [log].
      rewrite pace_of_app. cbn [log] in Hd. rewrite Hd.
      clear - Hl. induction l as [|e l IHl]; [discriminate|].
      cbn [fold_left].
      destruct (wait_closing_quiet snap e (Hl e (or_introl eq_refl)))
        as [He _].
      unfold pace_step at 2. rewrite He.
      replace (is_delay e) with false; [apply IHl|].
      - intros e' He'. apply Hl. right. exact He'.
      - destruct (wait_closing_quiet snap e (Hl e (or_introl eq_refl)))
          as [_ Hsl].
        destruct e; try reflexivity; discriminate. }
    destruct (f <=? length (wait_closing snap))%nat; cbn [fst];
      apply Hquiet; [|tauto].
    intros e He. apply in_firstn in He. exact He.
  - rewrite (wait_poll job_name f w snap Hs Ht).
    destruct f as [|[|f]].
    + rewrite exec_0. cbn [fst firstn add_log fold_left]. congruence.
    + rewrite exec_0. cbn [fst firstn add_log fold_left].
      unfold record at 1. cbn [log]. rewrite pace_of_app, Hd. discriminate.
    + cbn [firstn]. rewrite firstn_nil.
      fold (wait_round job_name w). apply IH; [lia|].
      destruct (wait_round_fields job_name w) as (_ & _ & _ & _ & ->).
      rewrite pace_of_app, Hw. reflexivity.
Qed.

(** The wait loop describes no other job than the one it is given (the
    notebook passes it [job_name_boto], the name it created the job with),
    and it sleeps five seconds at a time. *)
Lemma wait_vocabulary (job_name : string) (fuel : nat) :
  forall w,
    Forall (wait_event job_name) (log w) ->
    Forall (wait_event job_name)
      (log (fst (exec scripted fuel
                   (wait_for_training_job_boto3 job_name) w))).
Proof.
  induction fuel as [fuel IH] using lt_wf_ind. intros w Hw.
  destruct fuel as [|f]; [rewrite exec_0; exact Hw|].
  assert (forall l,
            Forall (wait_event job_name) l ->
            Forall (wait_event job_name)
              (log (add_log l (described job_name w)))) as Hadd.
  { intros l Hl. rewrite add_log_spec. unfold described, record. cbn [log].
    apply Forall_app. split; [|exact Hl].
    apply Forall_app. split; [exact Hw|].
    constructor; [reflexivity|constructor]. }
  destruct (served (snapshots w) (n_describe w)) as [snap|] eqn:Hs.
  2:{ rewrite (wait_blocked job_name f w Hs). exact (Hadd [] (Forall_nil _)). }
  assert (forall n l, Forall (wait_event job_name) l ->
            Forall (wait_event job_name) (firstn n l)) as Hfirst.
  { intros n l Hl. apply Forall_forall. intros e He.
    apply in_firstn in He. revert e He. apply Forall_forall. exact Hl. }
  destruct (terminal snap) eqn:Ht.
  - rewrite (wait_stop job_name f w snap Hs Ht).
    assert (Forall (wait_event job_name) (wait_closing snap)) as Hc.
    { unfold wait_closing.
      destruct (TrainingJobStatus snap =? "Failed"); [|constructor].
      destruct (FailureReason snap); repeat constructor. }
    destruct (f <=? length (wait_closing snap))%nat; cbn [fst];
      apply Hadd; [apply Hfirst|]; exact Hc.
  - rewrite (wait_poll job_name f w snap Hs Ht).
    apply IH; [lia|]. apply Hadd, Hfirst. repeat constructor.
Qed.

(* ===================================================================== *)
(** * The wait loop: what the specification says of it *)
(* ===================================================================== *)

(** Two polls that find the job in progress, then one that finds it
    failed. *)
Example wait_run :
  exec scripted 20 (wait_for_training_job_boto3 "job")
    (start (Finite [in_progress; in_progress; failed_with "OutOfMemory"])
       (Finite [])) =
  ({| creations := Finite [];
      snapshots := Finite [in_progress; in_progress; failed_with "OutOfMemory"];
      pages := Finite [];
      n_create := 0; n_describe := 3; n_list := 0;
      log := [EvDescribe "job" (Some in_progress);
              EvPrint [Str "-"] ""; EvSleep 5;
              EvDescribe "job" (Some in_progress);
              EvPrint [Str "-"] ""; EvSleep 5;
              EvDescribe "job" (Some (failed_with "OutOfMemory"));
              EvPrint [Str "OutOfMemory"] newline] |},
   Some Returned).
Proof. vm_compute. reflexivity. Qed.

(** A job that never leaves 'InProgress': after 40 nodes the loop has
    polled 10 times, slept 50 seconds and not ended. *)
Example wait_run_forever :
  let run := exec scripted 40 (wait_for_training_job_boto3 "job")
               (start (Infinite (fun _ => in_progress)) (Finite [])) in
  n_describe (fst run) = 10 /\ elapsed (log (fst run)) = 50%Z /\
  snd run = None.
Proof. vm_compute. repeat split; reflexivity. Qed.

(** C1. The statuses the wait loop takes for terminal are 'Failed',
    'Completed' and 'Stopped'. For every sequence of snapshots, finite or
    infinite, the loop ends if and only if some snapshot of the sequence
    has a terminal status; when it ends it has stopped at the first such
    snapshot: every snapshot before it was not terminal, it is the last one
    described, and the describe calls are as many as the snapshots up to
    it. *)
Theorem wait_ends_iff_terminal_snapshot (job_name : string)
  (s : feed training_job) (p : feed list_response) :
  (forall snap,
      terminal snap = true <->
      TrainingJobStatus snap = "Failed" \/
      TrainingJobStatus snap = "Completed" \/
      TrainingJobStatus snap = "Stopped") /\
  ((exists fuel w r,
       exec scripted fuel (wait_for_training_job_boto3 job_name) (start s p)
         = (w, Some r)) <->
   (exists n snap, served s n = Some snap /\ terminal snap = true)) /\
  (forall fuel w r,
      exec scripted fuel (wait_for_training_job_boto3 job_name) (start s p)
        = (w, Some r) ->
      exists n snap,
        served s n = Some snap /\
        terminal snap = true /\
        (forall m snap',
            m < n -> served s m = Some snap' -> terminal snap' = false) /\
        n_describe w = S n /\
        last_snapshot (log w) = Some snap).
Proof.
  assert (forall fuel w r,
      exec scripted fuel (wait_for_training_job_boto3 job_name) (start s p)
        = (w, Some r) ->
      exists n snap,
        served s n = Some snap /\
        terminal snap = true /\
        (forall m snap',
            m < n -> served s m = Some snap' -> terminal snap' = false) /\
        n_describe w = S n /\
        last_snapshot (log w) = Some snap) as Hinv.
  { intros fuel w r H.
    apply wait_ends_inv in H as (k & snap & Hpoll & Hs & Ht & -> & _).
    cbn [start snapshots n_describe plus] in Hpoll, Hs.
    destruct (wait_rounds_fields job_name k (start s p))
      as (E1 & _ & E2 & _).
    exists k, snap. repeat split; try assumption.
    - intros m snap' Hm Hs'. specialize (Hpoll m Hm).
      unfold polls_on in Hpoll. rewrite Hs' in Hpoll.
      apply negb_true_iff. exact Hpoll.
    - rewrite add_log_spec. cbn. rewrite E2. reflexivity.
    - rewrite add_log_spec. cbn. rewrite !last_snapshot_app.
      rewrite last_snapshot_closing. cbn. rewrite E1, E2. cbn.
      rewrite Hs. reflexivity. }
  split; [|split; [split|exact Hinv]].
  - intros snap. unfold terminal, py_in. cbn [existsb].
    rewrite !orb_true_iff, !String.eqb_eq. intuition discriminate.
  - intros (fuel & w & r & H).
    destruct (Hinv fuel w r H) as (n & snap & Hs & Ht & _).
    exists n, snap. split; assumption.
  - intros (n & snap & Hs & Ht).
    destruct (first_terminal s n snap Hs Ht) as (k & snap' & Hs' & Ht' & Hp).
    exists (4 * k + 3). eexists. eexists.
    apply wait_ends with (k := k) (snap := snap').
    + intros j Hj. apply Hp. exact Hj.
    + exact Hs'.
    + exact Ht'.
    + lia.
Qed.

(** ** The wait loop and [rich] *)

Section Rich.

Variable rich : renderer.

(** A request or output that returns under [scripted_with] is answered as
    under [scripted]: only a print that raises tells the two apart. *)
Lemma scripted_with_returns (T : Type) (e : notebookE T) (k k' : kernel)
  (a : T) :
  scripted_with rich T e k = (k', Some a) ->
  scripted T e (plane k) = (plane k', Some a) /\ raised k' = raised k.
Proof.
  destruct e; cbn.
  - intros H. injection H as <- ->. split; reflexivity.
  - intros H. injection H as <- ->. split; reflexivity.
  - intros H. injection H as <- ->. split; reflexivity.
  - destruct (rich objects end_); [|discriminate].
    intros H. injection H as <- <-. split; reflexivity.
  - intros H. injection H as <- <-. split; reflexivity.
Qed.

(** A cell that ends with every print returning ends alike in the
    scripted world. *)
Lemma scripted_with_ended {R : Type} (fuel : nat) :
  forall (t : itree notebookE R) (k k' : kernel) (r : R),
    exec (scripted_with rich) fuel t k = (k', Some r) ->
    exec scripted fuel t (plane k) = (plane k', Some r) /\
    raised k' = raised k.
Proof.
  induction fuel as [|n IH]; intros t k k' r H; [discriminate|].
  unfold exec in H. fold (@exec kernel R) in H.
  unfold exec. fold (@exec world R).
  destruct (observe t) as [r0|t0|T e c].
  - injection H as <- <-. split; reflexivity.
  - apply IH. exact H.
  - destruct (scripted_with rich T e k) as [k1 [a|]] eqn:E; [|discriminate].
    apply scripted_with_returns in E as [E Hr]. rewrite E.
    apply IH in H as [H Hr']. split; [exact H|congruence].
Qed.

(** At every point of a run, the scripted part of the kernel is a world
    that the run reaches in the scripted world: a print that raises only
    cuts the run short. *)
Lemma scripted_with_plane {R : Type} (fuel : nat) :
  forall (t : itree notebookE R) (k : kernel),
    exists fuel',
      fuel' <= fuel /\
      plane (fst (exec (scripted_with rich) fuel t k))
      = fst (exec scripted fuel' t (plane k)).
Proof.
  induction fuel as [|n IH]; intros t k.
  { exists 0. split; [lia|reflexivity]. }
  destruct (observe t) as [r0|t0|T e c] eqn:Ho.
  - exists (S n). split; [lia|].
    unfold exec. rewrite Ho. reflexivity.
  - destruct (IH t0 k) as (m & Hm & E).
    exists (S m). split; [lia|].
    unfold exec. fold (@exec kernel R). fold (@exec world R).
    rewrite Ho. exact E.
  - destruct (scripted_with rich T e k) as [k1 [a|]] eqn:E.
    + pose proof E as E'.
      apply scripted_with_returns in E' as [E' _].
      destruct (IH (c a) k1) as (m & Hm & Em).
      exists (S m). split; [lia|].
      unfold exec. fold (@exec kernel R). fold (@exec world R).
      rewrite Ho, E, E'. exact Em.
    + destruct e; cbn in E.
      * injection E as <- E. exists (S n). split; [lia|].
        unfold exec. fold (@exec kernel R). fold (@exec world R).
        rewrite Ho. cbn. rewrite E. reflexivity.
      * injection E as <- E. exists (S n). split; [lia|].
        unfold exec. fold (@exec kernel R). fold (@exec world R).
        rewrite Ho. cbn. rewrite E. reflexivity.
      * injection E as <- E. exists (S n). split; [lia|].
        unfold exec. fold (@exec kernel R). fold (@exec world R).
        rewrite Ho. cbn. rewrite E. reflexivity.
      * destruct (rich objects end_) eqn:Hr; [discriminate|].
        injection E as <-. exists 0. split; [lia|].
        unfold exec. fold (@exec kernel R).
        rewrite Ho. cbn. rewrite Hr. reflexivity.
      * discriminate.
Qed.

Variable job_name : string.

#[local] Abbreviation wait := (wait_for_training_job_boto3 job_name).





End Rich.




(** C5. When the snapshots are 'InProgress' [k] times and then
    'Completed', the wait loop ends without error after [k + 1] describe
    calls, the fewest that can observe the terminal status, and at no point
    of the run have more describe calls been made: none follows the first
    terminal snapshot. *)
Theorem wait_completed_after_minimal_polls (job_name : string)
  (s : feed training_job) (p : feed list_response) (k : nat) :
  (forall i, i < k ->
     exists snap,
       served s i = Some snap /\ TrainingJobStatus snap = "InProgress") ->
  (exists snap,
     served s k = Some snap /\ TrainingJobStatus snap = "Completed") ->
  exists fuel w,
    exec scripted fuel (wait_for_training_job_boto3 job_name) (start s p)
      = (w, Some Returned) /\
    n_describe w = S k /\
    forall fuel',
      n_describe
        (fst (exec scripted fuel' (wait_for_training_job_boto3 job_name)
                (start s p))) <= S k.
Proof.
  intros Hprogress (snap & Hs & Hcompleted).
  assert (forall j, j < k ->
            polls_on (snapshots (start s p))
              (n_describe (start s p) + j) = true) as Hpoll.
  { intros j Hj. destruct (Hprogress j Hj) as (sj & Hsj & Hst).
    cbn. unfold polls_on, terminal. rewrite Hsj, Hst. reflexivity. }
  assert (terminal snap = true) as Ht.
  { unfold terminal. rewrite Hcompleted. reflexivity. }
  pose proof (wait_ends job_name k (start s p) snap Hpoll Hs Ht
                (4 * k + 3) (le_n _)) as Hrun.
  assert (wait_result snap = Returned) as Hres.
  { unfold wait_result. rewrite Hcompleted. reflexivity. }
  rewrite Hres in Hrun.
  exists (4 * k + 3). eexists. split; [exact Hrun|].
  assert (n_describe
            (add_log (wait_closing snap)
               (described job_name (wait_rounds job_name k (start s p))))
          = S k) as Hn.
  { rewrite add_log_spec. cbn.
    destruct (wait_rounds_fields job_name k (start s p))
      as (_ & _ & -> & _). reflexivity. }
  split; [exact Hn|].
  intros fuel'. rewrite <- Hn.
  exact (exec_bounded_by_end scripted n_describe scripted_n_describe
           _ _ _ _ _ Hrun fuel').
Qed.

Lemma wait_completed_after_minimal_polls_witness :
  exists fuel w,
    exec scripted fuel (wait_for_training_job_boto3 "job")
      (start (Finite [in_progress; in_progress; completed]) (Finite []))
      = (w, Some Returned) /\
    n_describe w = 3 /\
    forall fuel',
      n_describe
        (fst (exec scripted fuel' (wait_for_training_job_boto3 "job")
                (start (Finite [in_progress; in_progress; completed])
                   (Finite [])))) <= 3.
Proof.
  apply (wait_completed_after_minimal_polls "job"
           (Finite [in_progress; in_progress; completed]) (Finite []) 2).
  - intros [|[|i]] Hi; [exists in_progress; split; reflexivity ..|lia].
  - exists completed. split; reflexivity.
Defined.

(** The wait loop of the notebook takes no timeout. It never fails with
    [TimeoutError]; and as long as the snapshots are not terminal it is
    still polling, five seconds of sleep after each of them, however much
    time that makes: after [k] such snapshots the run has not ended, [k]
    describe calls have been made and [5 * k] seconds have elapsed. *)
Lemma wait_has_no_timeout (job_name : string)
  (s : feed training_job) (p : feed list_response) :
  (forall fuel w r,
      exec scripted fuel (wait_for_training_job_boto3 job_name) (start s p)
        = (w, Some r) ->
      r <> Raised TimeoutError) /\
  (forall k,
      (forall j, j < k -> polls_on s j = true) ->
      exists w,
        exec scripted (4 * k) (wait_for_training_job_boto3 job_name)
          (start s p) = (w, None) /\
        n_describe w = k /\
        elapsed (log w) = (5 * Z.of_nat k)%Z).
Proof.
  split.
  - intros fuel w r H.
    apply wait_ends_inv in H as (k & snap & _ & _ & _ & _ & ->).
    unfold wait_result.
    destruct (TrainingJobStatus snap =? "Failed"); [|discriminate].
    destruct (FailureReason snap); discriminate.
  - intros k Hpoll.
    exists (wait_rounds job_name k (start s p)).
    destruct (wait_rounds_fields job_name k (start s p))
      as (_ & _ & E2 & _ & E3).
    repeat split.
    + replace (4 * k) with (4 * k + 0) by lia.
      rewrite (wait_polls job_name k (start s p)); [reflexivity|].
      intros j Hj. cbn. apply Hpoll. exact Hj.
    + rewrite E2. reflexivity.
    + rewrite E3. cbn. lia.
Qed.

(** ** [wait] with a timeout *)

Section WaitWithTimeout.

Variables (name : string) (poll_interval : Z) (timeout : option Z).

#[local] Abbreviation wait_from :=
  (TrainingJob.wait_from name poll_interval timeout).

(** The snapshot is not terminal and the bound is not exceeded: a delay,
    and the loop starts over. *)
Lemma sdk_wait_poll (f : nat) (w : world) (snap : training_job) (waited : Z) :
  served (snapshots w) (n_describe w) = Some snap ->
  terminal snap = false ->
  TrainingJob.exceeded timeout waited = false ->
  exec scripted (S (S (S f))) (wait_from waited) w =
  exec scripted f (wait_from (waited + poll_interval)%Z)
    (TrainingJob.turn name poll_interval w).
Proof.
  intros Hs Ht Hex. unfold TrainingJob.wait_from at 1.
  rewrite unfold_iter. unfold TrainingJob.poll at 1.
  rewrite bind_bind, exec_trigger. cbn [scripted]. rewrite Hs, Ht, Hex.
  rewrite bind_bind, exec_trigger. cbn [scripted].
  rewrite bind_ret_l, exec_tau. reflexivity.
Qed.


Lemma sdk_turn_fields (w : world) :
  snapshots (TrainingJob.turn name poll_interval w) = snapshots w /\
  n_describe (TrainingJob.turn name poll_interval w) = S (n_describe w) /\
  elapsed (log (TrainingJob.turn name poll_interval w))
  = (elapsed (log w) + poll_interval)%Z.
Proof.
  unfold TrainingJob.turn. rewrite add_log_spec. cbn.
  rewrite !elapsed_app. cbn. repeat split; try reflexivity. lia.
Qed.

Lemma sdk_turns_fields (n : nat) :
  forall w,
    snapshots (TrainingJob.turns name poll_interval n w) = snapshots w /\
    n_describe (TrainingJob.turns name poll_interval n w) = n_describe w + n /\
    elapsed (log (TrainingJob.turns name poll_interval n w))
    = (elapsed (log w) + Z.of_nat n * poll_interval)%Z.
Proof.
  induction n as [|n IH]; intros w; cbn [TrainingJob.turns].
  - repeat split; try reflexivity; lia.
  - destruct (IH (TrainingJob.turn name poll_interval w)) as (-> & -> & ->).
    destruct (sdk_turn_fields w) as (-> & -> & ->).
    repeat split; try reflexivity; lia.
Qed.

(** [n] turns that poll again cost three nodes each. *)
Lemma sdk_wait_polls (n : nat) :
  forall w waited,
    (forall j, j < n -> polls_on (snapshots w) (n_describe w + j) = true) ->
    (forall j, j < n ->
               TrainingJob.exceeded timeout
                 (waited + Z.of_nat j * poll_interval)%Z = false) ->
    forall fuel,
      exec scripted (3 * n + fuel) (wait_from waited) w =
      exec scripted fuel
        (wait_from (waited + Z.of_nat n * poll_interval)%Z)
        (TrainingJob.turns name poll_interval n w).
Proof.
  induction n as [|n IH]; intros w waited Hpoll Hin fuel.
  { cbn [TrainingJob.turns]. replace (waited + Z.of_nat 0 * poll_interval)%Z
      with waited by lia. reflexivity. }
  pose proof (Hpoll 0 ltac:(lia)) as H0. rewrite Nat.add_0_r in H0.
  unfold polls_on in H0.
  destruct (served (snapshots w) (n_describe w)) as [snap|] eqn:Hs;
    [|discriminate].
  apply negb_true_iff in H0.
  pose proof (Hin 0 ltac:(lia)) as Hex.
  replace (waited + Z.of_nat 0 * poll_interval)%Z with waited in Hex by lia.
  replace (3 * S n + fuel) with (S (S (S (3 * n + fuel)))) by lia.
  rewrite (sdk_wait_poll _ w snap waited Hs H0 Hex).
  cbn [TrainingJob.turns].
  replace (waited + Z.of_nat (S n) * poll_interval)%Z
    with (waited + poll_interval + Z.of_nat n * poll_interval)%Z by lia.
  apply IH.
  - intros j Hj. destruct (sdk_turn_fields w) as (-> & -> & _).
    replace (S (n_describe w) + j) with (n_describe w + S j) by lia.
    apply Hpoll. lia.
  - intros j Hj.
    replace (waited + poll_interval + Z.of_nat j * poll_interval)%Z
      with (waited + Z.of_nat (S j) * poll_interval)%Z by lia.
    apply Hin. lia.
Qed.

(** A terminal snapshot met after [n] turns, the bound not exceeded till
    then, ends [wait] with that snapshot, failure reason included: no
    [TimeoutError] then. *)
Lemma sdk_wait_returns_terminal (n : nat) (w : world) (snap : training_job) :
  (forall j, j < n -> polls_on (snapshots w) (n_describe w + j) = true) ->
  (forall j, j < n ->
             TrainingJob.exceeded timeout (Z.of_nat j * poll_interval)%Z
             = false) ->
  served (snapshots w) (n_describe w + n) = Some snap ->
  terminal snap = true ->
  exec scripted (3 * n + 2) (wait_from 0%Z) w =
  (described name (TrainingJob.turns name poll_interval n w),
   Some (TrainingJob.Terminal snap)).
Proof.
  intros Hpoll Hin Hs Ht.
  rewrite (sdk_wait_polls n w 0%Z Hpoll).
  - destruct (sdk_turns_fields n w) as (E1 & E2 & _).
    unfold TrainingJob.wait_from.
    rewrite unfold_iter. unfold TrainingJob.poll at 1.
    rewrite bind_bind, exec_trigger. cbn [scripted].
    rewrite E1, E2, Hs, Ht. rewrite bind_ret_l. reflexivity.
  - intros j Hj. cbn [Z.add]. apply Hin. exact Hj.
Qed.

End WaitWithTimeout.



(** C8. The wait loop never busy-loops. At every point of every run, a
    sleep of positive duration lies between any two describe calls made so
    far, and every sleep is the fixed one of five seconds; and when the run
    has ended, its last describe call returned a terminal snapshot and
    nothing is slept after it. *)
Theorem wait_never_busy_loops (job_name : string)
  (s : feed training_job) (p : feed list_response) (fuel : nat) :
  let run := exec scripted fuel (wait_for_training_job_boto3 job_name)
               (start s p) in
  (forall pre d1 mid d2 post,
      log (fst run) = pre ++ d1 :: mid ++ d2 :: post ->
      is_describe d1 = true ->
      is_describe d2 = true ->
      exists secs, In (EvSleep secs) mid /\ (0 < secs)%Z) /\
  (forall secs, In (EvSleep secs) (log (fst run)) -> secs = 5%Z) /\
  (forall r,
      snd run = Some r ->
      exists pre snap closing,
        log (fst run) = pre ++ EvDescribe job_name (Some snap) :: closing /\
        terminal snap = true /\
        forall e, In e closing -> is_sleep e = false /\ is_describe e = false).
Proof.
  cbv zeta. split; [|split].
  - apply pace_sound. apply wait_pace. reflexivity.
  - intros secs Hin.
    pose proof (wait_vocabulary job_name fuel (start s p) (Forall_nil _))
      as Hvoc.
    rewrite Forall_forall in Hvoc. exact (Hvoc _ Hin).
  - intros r Hr.
    destruct (exec scripted fuel (wait_for_training_job_boto3 job_name)
                (start s p)) as [w o] eqn:H.
    cbn [snd fst] in *. subst o.
    apply wait_ends_inv in H as (k & snap & _ & Hs & Ht & -> & _).
    cbn [start snapshots n_describe plus] in Hs.
    destruct (wait_rounds_fields job_name k (start s p))
      as (E1 & _ & E2 & _).
    exists (log (wait_rounds job_name k (start s p))), snap,
      (wait_closing snap).
    split; [|split; [exact Ht|]].
    + rewrite add_log_spec. cbn [log described record].
      rewrite E1, E2. cbn [start snapshots n_describe plus].
      rewrite Hs, <- app_assoc. reflexivity.
    + intros e He.
      destruct (wait_closing_quiet snap e He) as [Hd Hsl].
      split; assumption.
Qed.

(* ===================================================================== *)
(** * The listing loop, round by round *)
(* ===================================================================== *)

Section ListLoop.

Variable creation_time_after : Z.

#[local] Abbreviation list_from :=
  (list_training_jobs_from creation_time_after).

(** The [for] over the summaries of a page, followed by [k]: each job
    printed takes one node. *)
Lemma exec_print_jobs {R : Type} (jobs : list training_job) :
  forall (f : nat) (k : unit -> itree notebookE R) (w : world),
    exec scripted f (ITree.bind (for_each jobs print_job) k) w =
    exec scripted (f - length jobs) (k tt)
      (add_log (List.map ev_print_job (firstn f jobs)) w).
Proof.
  induction jobs as [|job jobs IH]; intros f k w; cbn [for_each].
  - rewrite bind_ret_l, Nat.sub_0_r, firstn_nil. reflexivity.
  - rewrite bind_bind. unfold print_job at 1.
    destruct f as [|f]; [reflexivity|].
    answer. rewrite IH. reflexivity.
Qed.

(** The list call does not return. *)
Lemma list_blocked (f : nat) (tok : option string) (w : world) :
  served (pages w) (n_list w) = None ->
  exec scripted (S f) (list_from tok) w =
  (listed creation_time_after (token_sent tok) w, None).
Proof.
  intros Hs. unfold list_training_jobs_from.
  rewrite unfold_iter. unfold list_training_jobs_round at 1.
  rewrite bind_bind. unfold token_sent.
  destruct (truthy tok); answer;
    rewrite Hs; reflexivity.
Qed.

(** A page arrives: its jobs are printed, and its token decides between
    the [break] and another round. *)
Lemma list_page (f : nat) (tok : option string) (w : world)
  (page : list_response) :
  served (pages w) (n_list w) = Some page ->
  exec scripted (S f) (list_from tok) w =
  let w1 :=
    add_log (List.map ev_print_job (firstn f (TrainingJobSummaries page)))
      (listed creation_time_after (token_sent tok) w) in
  if truthy (NextToken page)
  then exec scripted (f - length (TrainingJobSummaries page) - 1)
         (list_from (NextToken page)) w1
  else if (f <=? length (TrainingJobSummaries page))%nat
       then (w1, None)
       else (w1, Some tt).
Proof.
  intros Hs. unfold list_training_jobs_from at 1.
  rewrite unfold_iter. unfold list_training_jobs_round at 1.
  rewrite bind_bind. unfold token_sent. cbv zeta.
  assert (forall t,
    exec scripted (S f)
      (ITree.bind
         (ITree.trigger (list_training_jobs creation_time_after t))
         (fun response =>
            ITree.bind
              (for_each (TrainingJobSummaries response) print_job ;;
               (if negb (truthy (NextToken response))
                then Ret (inr tt)
                else Ret (inl (NextToken response))))
              (fun lr =>
                 match lr with
                 | inl l =>
                     Tau (ITree.iter
                            (list_training_jobs_round creation_time_after)
                            l)
                 | inr r => Ret r
                 end))) w =
    (if truthy (NextToken page)
     then exec scripted (f - length (TrainingJobSummaries page) - 1)
            (list_from (NextToken page))
            (add_log
               (List.map ev_print_job
                  (firstn f (TrainingJobSummaries page)))
               (listed creation_time_after t w))
     else if (f <=? length (TrainingJobSummaries page))%nat
          then (add_log
                  (List.map ev_print_job
                     (firstn f (TrainingJobSummaries page)))
                  (listed creation_time_after t w), None)
          else (add_log
                  (List.map ev_print_job
                     (firstn f (TrainingJobSummaries page)))
                  (listed creation_time_after t w), Some tt))) as Hcall.
  { intros t. answer. rewrite Hs.
    rewrite bind_bind, exec_print_jobs.
    destruct (truthy (NextToken page)); cbn [negb]; rewrite bind_ret_l.
    - destruct (f - length (TrainingJobSummaries page)) as [|f'] eqn:E;
        [reflexivity|].
      rewrite exec_tau. cbn [Nat.sub]. rewrite Nat.sub_0_r. reflexivity.
    - destruct (f <=? length (TrainingJobSummaries page))%nat eqn:E.
      + apply Nat.leb_le in E.
        replace (f - length (TrainingJobSummaries page)) with 0 by lia.
        reflexivity.
      + apply Nat.leb_gt in E.
        destruct (f - length (TrainingJobSummaries page)) as [|f'] eqn:E';
          [lia|reflexivity]. }
  destruct (truthy tok); apply Hcall.
Qed.

End ListLoop.

(* ===================================================================== *)
(** * Runs of the listing loop *)
(* ===================================================================== *)

Lemma tokens_sent_app (l1 l2 : list io_event) :
  tokens_sent (l1 ++ l2) = tokens_sent l1 ++ tokens_sent l2.
Proof.
  induction l1 as [|e l1 IH]; [reflexivity|].
  destruct e; cbn; rewrite IH; reflexivity.
Qed.

Lemma tokens_received_app (l1 l2 : list io_event) :
  tokens_received (l1 ++ l2) = tokens_received l1 ++ tokens_received l2.
Proof.
  induction l1 as [|e l1 IH]; [reflexivity|].
  destruct e as [| |? ? [page|]| |]; cbn; rewrite IH; reflexivity.
Qed.

Lemma tokens_of_prints (jobs : list training_job) :
  tokens_sent (List.map ev_print_job jobs) = [] /\
  tokens_received (List.map ev_print_job jobs) = [].
Proof. induction jobs as [|job jobs IH]; [split; reflexivity|exact IH]. Qed.

Section ListRuns.

Variable creation_time_after : Z.

#[local] Abbreviation list_from :=
  (list_training_jobs_from creation_time_after).

Lemma listed_fields (tok : option string) (w : world) :
  snapshots (listed creation_time_after tok w) = snapshots w /\
  pages (listed creation_time_after tok w) = pages w /\
  n_describe (listed creation_time_after tok w) = n_describe w /\
  n_list (listed creation_time_after tok w) = S (n_list w) /\
  log (listed creation_time_after tok w) =
    log w ++ [EvList creation_time_after tok
                (served (pages w) (n_list w))].
Proof. repeat split; reflexivity. Qed.

Lemma printed_fields (jobs : list training_job) (w : world) :
  snapshots (add_log (List.map ev_print_job jobs) w) = snapshots w /\
  pages (add_log (List.map ev_print_job jobs) w) = pages w /\
  n_describe (add_log (List.map ev_print_job jobs) w) = n_describe w /\
  n_list (add_log (List.map ev_print_job jobs) w) = n_list w /\
  log (add_log (List.map ev_print_job jobs) w) =
    log w ++ List.map ev_print_job jobs.
Proof. rewrite add_log_spec. repeat split; reflexivity. Qed.

(** [k] rounds that each receive a page with a true token. *)
Lemma list_continues (k : nat) :
  forall tok w,
    (forall j, j < k -> continues (pages w) (n_list w + j) = true) ->
    pages (fst (list_rounds creation_time_after k tok w)) = pages w /\
    n_list (fst (list_rounds creation_time_after k tok w)) = n_list w + k /\
    forall fuel,
      exec scripted (list_cost (pages w) (n_list w) k + fuel)
        (list_from tok) w =
      exec scripted fuel
        (list_from (snd (list_rounds creation_time_after k tok w)))
        (fst (list_rounds creation_time_after k tok w)).
Proof.
  induction k as [|k IH]; intros tok w Hcont; cbn [list_rounds list_cost].
  - cbn [fst snd]. repeat split; try reflexivity. lia.
  - pose proof (Hcont 0 ltac:(lia)) as H0. rewrite Nat.add_0_r in H0.
    unfold continues in H0.
    destruct (served (pages w) (n_list w)) as [page|] eqn:Hs;
      [|discriminate].
    set (w1 := list_round creation_time_after tok page w).
    assert (pages w1 = pages w /\ n_list w1 = S (n_list w)) as [E1 E2].
    { unfold w1, list_round.
      destruct (printed_fields (TrainingJobSummaries page)
                  (listed creation_time_after (token_sent tok) w))
        as (_ & -> & _ & -> & _).
      split; reflexivity. }
    destruct (IH (NextToken page) w1) as (P1 & P2 & P3).
    { intros j Hj. rewrite E1, E2.
      replace (S (n_list w) + j) with (n_list w + S j) by lia.
      apply Hcont. lia. }
    rewrite P1, P2, E1, E2. repeat split; try reflexivity; try lia.
    intros fuel. rewrite <- P3, E1, E2.
    cbn [plus].
    rewrite (list_page creation_time_after _ tok w page Hs).
    cbv zeta. rewrite H0.
    rewrite firstn_all2 by lia. fold w1.
    f_equal. lia.
Qed.

(** A round makes one list call, as soon as it has a node to spend. *)
Lemma list_calls_once (tok : option string) (w : world) :
  n_list (fst (exec scripted 1 (list_from tok) w)) = S (n_list w).
Proof.
  destruct (served (pages w) (n_list w)) as [page|] eqn:Hs.
  - rewrite (list_page creation_time_after 0 tok w page Hs). cbv zeta.
    destruct (truthy (NextToken page)); [rewrite exec_0|];
      cbn [Nat.leb fst];
      destruct (printed_fields
                  (firstn 0 (TrainingJobSummaries page))
                  (listed creation_time_after (token_sent tok) w))
        as (_ & _ & _ & -> & _); reflexivity.
  - rewrite (list_blocked creation_time_after 0 tok w Hs). reflexivity.
Qed.

(** A round whose page does not arrive, or arrives with a false token,
    is the last one that makes a list call. *)
Lemma list_last_round (tok : option string) (w : world) :
  continues (pages w) (n_list w) = false ->
  forall fuel,
    n_list (fst (exec scripted fuel (list_from tok) w)) <= S (n_list w).
Proof.
  intros Hc fuel. destruct fuel as [|f]; [rewrite exec_0; cbn; lia|].
  unfold continues in Hc.
  destruct (served (pages w) (n_list w)) as [page|] eqn:Hs.
  - rewrite (list_page creation_time_after f tok w page Hs). cbv zeta.
    rewrite Hc.
    destruct (f <=? length (TrainingJobSummaries page))%nat; cbn [fst];
      destruct (printed_fields
                  (firstn f (TrainingJobSummaries page))
                  (listed creation_time_after (token_sent tok) w))
        as (_ & _ & _ & -> & _); cbn; lia.
  - rewrite (list_blocked creation_time_after f tok w Hs). cbn. lia.
Qed.

(** The tokens of the log follow the protocol at every point of a run
    that starts at the head of a round. *)
Lemma list_in_protocol (fuel : nat) :
  forall tok w,
    at_head (log w) tok ->
    in_protocol (log (fst (exec scripted fuel (list_from tok) w))).
Proof.
  induction fuel as [fuel IH] using lt_wf_ind. intros tok w [Hhead Htok].
  assert (forall ans jobs,
            tokens_sent
              (log w ++ [EvList creation_time_after (token_sent tok) ans]
                 ++ List.map ev_print_job jobs)
            = None :: tokens_received (log w)) as Hsent.
  { intros ans jobs. rewrite !tokens_sent_app.
    destruct (tokens_of_prints jobs) as [-> _].
    cbn. rewrite ?app_nil_r, Htok. exact Hhead. }
  destruct fuel as [|f].
  { rewrite exec_0. cbn [fst].
    destruct (tokens_sent (log w)) as [|t sent] eqn:E; [left; exact E|].
    right. cbn in Hhead. injection Hhead as -> Hrest.
    exists sent, [tok]. split; [exact E|]. symmetry. exact Hrest. }
  destruct (served (pages w) (n_list w)) as [page|] eqn:Hs.
  - rewrite (list_page creation_time_after f tok w page Hs). cbv zeta.
    set (jobs := firstn f (TrainingJobSummaries page)).
    destruct (printed_fields jobs
                (listed creation_time_after (token_sent tok) w))
      as (_ & _ & _ & _ & Hlog).
    cbn [log listed record] in Hlog. rewrite Hs, <- app_assoc in Hlog.
    assert (tokens_received
              (log (add_log (List.map ev_print_job jobs)
                      (listed creation_time_after (token_sent tok) w)))
            = tokens_received (log w) ++ [NextToken page]) as Hrecv.
    { rewrite Hlog, !tokens_received_app.
      destruct (tokens_of_prints jobs) as [_ ->].
      cbn. rewrite ?app_nil_r. reflexivity. }
    destruct (truthy (NextToken page)) eqn:Htruthy.
    + apply IH; [lia|]. split.
      * rewrite Hrecv, Hlog, Hsent. reflexivity.
      * unfold token_sent. rewrite Htruthy. reflexivity.
    + assert (in_protocol
                (log (add_log (List.map ev_print_job jobs)
                        (listed creation_time_after (token_sent tok) w))))
        as Hmid.
      { right. exists (tokens_received (log w)), [NextToken page].
        split; [rewrite Hlog; apply Hsent|exact Hrecv]. }
      destruct (f <=? length (TrainingJobSummaries page))%nat; exact Hmid.
  - rewrite (list_blocked creation_time_after f tok w Hs). cbn [fst].
    right. exists (tokens_received (log w)), [].
    cbn [log listed record]. rewrite Hs. split.
    + exact (Hsent None []).
    + rewrite tokens_received_app. reflexivity.
Qed.

End ListRuns.

Section ListBounds.

Variables (creation_time_after : Z) (s : feed training_job)
  (p : feed list_response).

#[local] Abbreviation listing :=
  (list_training_jobs_with_next_token creation_time_after).

(** When the page of call number [m] does not arrive, or arrives with a
    false token, no call follows it. *)
Lemma list_bound (m : nat) :
  (forall j, j < m -> continues p j = true) ->
  continues p m = false ->
  forall fuel,
    n_list (fst (exec scripted fuel listing (start s p))) <= S m.
Proof.
  intros Hcont Hlast fuel.
  destruct (list_continues creation_time_after m None (start s p) Hcont)
    as (P1 & P2 & P3).
  pose proof (exec_grows_with_fuel scripted n_list scripted_n_list fuel
                listing (start s p)
                (list_cost (pages (start s p)) (n_list (start s p)) m
                 + fuel) ltac:(lia)) as Hle.
  unfold list_training_jobs_with_next_token in Hle at 2.
  rewrite P3 in Hle.
  pose proof (list_last_round creation_time_after
                (snd (list_rounds creation_time_after m None (start s p)))
                (fst (list_rounds creation_time_after m None (start s p))))
    as Hend.
  rewrite P1, P2 in Hend. specialize (Hend Hlast fuel).
  cbn [start n_list plus] in Hend. lia.
Qed.

(** A call is only made after pages that all came with a true token. *)
Lemma made_continues (i : nat) :
  call_made creation_time_after s p i ->
  forall j, j < i -> continues p j = true.
Proof.
  intros (fuel & Hmade).
  destruct (all_or_first_failure (continues p) i)
    as [Hall|(m & Hm & Hfail & Hbelow)]; [exact Hall|].
  pose proof (list_bound m Hbelow Hfail fuel). lia.
Qed.

(** After a page with a true token the next call is made. *)
Lemma list_goes_on (i : nat) :
  (forall j, j < S i -> continues p j = true) ->
  exists fuel,
    n_list (fst (exec scripted fuel listing (start s p))) = S (S i).
Proof.
  intros Hcont.
  destruct (list_continues creation_time_after (S i) None (start s p) Hcont)
    as (_ & P2 & P3).
  exists (list_cost (pages (start s p)) (n_list (start s p)) (S i) + 1).
  unfold list_training_jobs_with_next_token.
  rewrite P3, list_calls_once, P2. reflexivity.
Qed.

End ListBounds.

Lemma falsy_token (tok : option string) :
  truthy tok = false <-> tok = None \/ tok = Some "".
Proof.
  destruct tok as [t|]; cbn.
  - rewrite negb_false_iff, String.eqb_eq. split.
    + intros ->. right. reflexivity.
    + intros [H|H]; [discriminate|]. injection H as ->. reflexivity.
  - split; [left; reflexivity|reflexivity].
Qed.

(* ===================================================================== *)
(** * The listing loop: what the specification says of it *)
(* ===================================================================== *)

(** Two pages: the second call carries the token of the first page. *)
Example list_run :
  let run := exec scripted 20 (list_training_jobs_with_next_token 1700000000)
               (start (Finite [])
                  (Finite
                     [ {| TrainingJobSummaries :=
                            [summary "job-1" "Completed";
                             summary "job-2" "InProgress"];
                          NextToken := Some "page-2" |};
                       {| TrainingJobSummaries := [summary "job-3" "Failed"];
                          NextToken := None |} ])) in
  snd run = Some tt /\
  tokens_sent (log (fst run)) = [None; Some "page-2"] /\
  printed_jobs (log (fst run)) =
    [("job-1", "Completed"); ("job-2", "InProgress"); ("job-3", "Failed")].
Proof. vm_compute. repeat split; reflexivity. Qed.

(** C4, as the code has it. In the listing loop the first list call
    carries no token, every later call carries exactly the token of the
    page received just before it, and the loop stops asking for pages
    precisely when a page comes with a token that Python takes for false:
    no token, or the empty string. *)
Theorem list_follows_cursor_protocol :
  cursor_protocol (fun tok => tok = None \/ tok = Some "").
Proof.
  intros after s p. split.
  - intros fuel. cbv zeta.
    pose proof (list_in_protocol after fuel None (start s p)) as H.
    fold (list_training_jobs_with_next_token after) in H.
    destruct H as [E|(received & rest & E1 & E2)].
    + split; reflexivity.
    + rewrite E. split; [reflexivity|]. intros i t Hi. destruct i; discriminate.
    + rewrite E1, E2. split; [reflexivity|]. intros i t Hi. cbn in Hi.
      rewrite nth_error_app1; [exact Hi|].
      apply nth_error_Some. congruence.
  - intros i page Hs Hmade. rewrite <- falsy_token.
    pose proof (made_continues after s p i Hmade) as Hbefore.
    split.
    + intros Hstop. destruct (truthy (NextToken page)) eqn:E; [|reflexivity].
      destruct (list_goes_on after s p i) as (fuel & Hn).
      { intros j Hj. destruct (Nat.eq_dec j i) as [->|Hne].
        - unfold continues. rewrite Hs. exact E.
        - apply Hbefore. lia. }
      specialize (Hstop fuel). lia.
    + intros Hfalse fuel. apply list_bound; [exact Hbefore|].
      unfold continues. rewrite Hs. exact Hfalse.
Qed.

(** C4, as worded, fails: a page that carries the empty string as its
    token carries a token, and the loop stops after it all the same. *)
Lemma list_stops_on_empty_token :
  ~ cursor_protocol (fun tok => tok = None).
Proof.
  intros H.
  pose (p := Finite
          [ {| TrainingJobSummaries := [summary "job-a" "Completed"];
               NextToken := Some "" |};
            {| TrainingJobSummaries := [summary "job-b" "Completed"];
               NextToken := None |} ]).
  destruct (H 0%Z (Finite []) p) as [_ Hstop].
  specialize (Hstop 0
                {| TrainingJobSummaries := [summary "job-a" "Completed"];
                   NextToken := Some "" |} eq_refl).
  assert (call_made 0 (Finite []) p 0) as Hmade.
  { exists 1. vm_compute. lia. }
  destruct (Hstop Hmade) as [Hnone _].
  assert (stops_after 0 (Finite []) p 0) as Hstops.
  { intros fuel.
    apply (exec_bounded_by_end scripted n_list scripted_n_list 5
             (list_training_jobs_with_next_token 0) (start (Finite []) p)
             (fst (exec scripted 5 (list_training_jobs_with_next_token 0)
                     (start (Finite []) p)))
             tt).
    vm_compute. reflexivity. }
  specialize (Hnone Hstops). discriminate Hnone.
Qed.

(** C7. When the collection is empty, that is, the first page holds no
    item and no token, the listing loop prints no job and makes exactly
    one list call: it ends after that call, which carried no token, and no
    point of the run has seen a second one. *)
Theorem lists_empty_collection (creation_time_after : Z)
  (s : feed training_job) (p : feed list_response) (page : list_response) :
  served p 0 = Some page ->
  TrainingJobSummaries page = [] ->
  NextToken page = None ->
  exists fuel w,
    exec scripted fuel
      (list_training_jobs_with_next_token creation_time_after) (start s p)
      = (w, Some tt) /\
    log w = [EvList creation_time_after None (Some page)] /\
    printed_jobs (log w) = [] /\
    n_list w = 1 /\
    forall fuel',
      n_list
        (fst (exec scripted fuel'
                (list_training_jobs_with_next_token creation_time_after)
                (start s p))) <= 1.
Proof.
  intros Hs Hjobs Htok.
  pose proof (list_page creation_time_after 1 None (start s p) page Hs)
    as Hrun.
  cbv zeta in Hrun. rewrite Hjobs, Htok in Hrun.
  cbn [truthy length Nat.leb firstn List.map add_log fold_left] in Hrun.
  fold (list_training_jobs_with_next_token creation_time_after) in Hrun.
  exists 2. eexists. split; [exact Hrun|].
  cbn [log listed record start token_sent truthy pages n_list app].
  rewrite Hs. repeat split.
  intros fuel'.
  exact (exec_bounded_by_end scripted n_list scripted_n_list
           _ _ _ _ _ Hrun fuel').
Qed.

Lemma lists_empty_collection_witness :
  exists fuel w,
    exec scripted fuel (list_training_jobs_with_next_token 0)
      (start (Finite [])
         (Finite [ {| TrainingJobSummaries := []; NextToken := None |} ]))
      = (w, Some tt) /\
    log w = [EvList 0 None
               (Some {| TrainingJobSummaries := []; NextToken := None |})] /\
    printed_jobs (log w) = [] /\
    n_list w = 1 /\
    forall fuel',
      n_list
        (fst (exec scripted fuel' (list_training_jobs_with_next_token 0)
                (start (Finite [])
                   (Finite [ {| TrainingJobSummaries := [];
                                NextToken := None |} ])))) <= 1.
Proof.
  apply (lists_empty_collection 0 (Finite [])
           (Finite [ {| TrainingJobSummaries := []; NextToken := None |} ])
           {| TrainingJobSummaries := []; NextToken := None |});
    reflexivity.
Defined.

(** C3, as the code has it. When the list operation returns three pages
    of 2, 2 and 1 items, with a non-empty token on the first two and no
    token on the third, the listing loop prints exactly the 5 items, in
    page order, and makes exactly 3 list calls: the first without a token,
    the next two with the tokens of the pages before them, and never a
    fourth. *)
Theorem lists_three_pages_with_tokens (creation_time_after : Z)
  (s : feed training_job) (a b c d e : training_job) (c1 c2 : string) :
  c1 <> "" ->
  c2 <> "" ->
  let p := Finite
    [ {| TrainingJobSummaries := [a; b]; NextToken := Some c1 |};
      {| TrainingJobSummaries := [c; d]; NextToken := Some c2 |};
      {| TrainingJobSummaries := [e]; NextToken := None |} ] in
  exists fuel w,
    exec scripted fuel
      (list_training_jobs_with_next_token creation_time_after) (start s p)
      = (w, Some tt) /\
    printed_jobs (log w) = List.map job_line [a; b; c; d; e] /\
    n_list w = 3 /\
    tokens_sent (log w) = [None; Some c1; Some c2] /\
    forall fuel',
      n_list
        (fst (exec scripted fuel'
                (list_training_jobs_with_next_token creation_time_after)
                (start s p))) <= 3.
Proof.
  intros H1 H2 p.
  assert (truthy (Some c1) = true) as T1.
  { cbn. apply negb_true_iff, String.eqb_neq. exact H1. }
  assert (truthy (Some c2) = true) as T2.
  { cbn. apply negb_true_iff, String.eqb_neq. exact H2. }
  assert (exists w,
            exec scripted 11
              (list_training_jobs_with_next_token creation_time_after)
              (start s p) = (w, Some tt) /\
            printed_jobs (log w) = List.map job_line [a; b; c; d; e] /\
            n_list w = 3 /\
            tokens_sent (log w) = [None; Some c1; Some c2])
    as (w & Hrun & Hprinted & Hn & Hsent).
  { unfold list_training_jobs_with_next_token.
    rewrite (list_page creation_time_after 10 None (start s p)
               {| TrainingJobSummaries := [a; b]; NextToken := Some c1 |}
               eq_refl).
    cbv zeta. cbn [NextToken TrainingJobSummaries length Nat.sub].
    rewrite T1.
    erewrite (list_page creation_time_after 6 (Some c1)) by reflexivity.
    cbv zeta. cbn [NextToken TrainingJobSummaries length Nat.sub].
    rewrite T2.
    erewrite (list_page creation_time_after 2 (Some c2)) by reflexivity.
    cbv zeta. cbn [NextToken TrainingJobSummaries length Nat.leb truthy].
    eexists. split; [reflexivity|].
    unfold token_sent. rewrite T1, T2.
    repeat split; reflexivity. }
  exists 11, w. repeat split; try assumption.
  intros fuel'. rewrite <- Hn.
  exact (exec_bounded_by_end scripted n_list scripted_n_list
           _ _ _ _ _ Hrun fuel').
Qed.

Lemma lists_three_pages_with_tokens_witness :
  let p := Finite
    [ {| TrainingJobSummaries :=
           [summary "job-1" "Completed"; summary "job-2" "Failed"];
         NextToken := Some "token-1" |};
      {| TrainingJobSummaries :=
           [summary "job-3" "InProgress"; summary "job-4" "Completed"];
         NextToken := Some "token-2" |};
      {| TrainingJobSummaries := [summary "job-5" "Stopped"];
         NextToken := None |} ] in
  exists fuel w,
    exec scripted fuel (list_training_jobs_with_next_token 0)
      (start (Finite []) p) = (w, Some tt) /\
    printed_jobs (log w) =
      [("job-1", "Completed"); ("job-2", "Failed"); ("job-3", "InProgress");
       ("job-4", "Completed"); ("job-5", "Stopped")] /\
    n_list w = 3 /\
    tokens_sent (log w) = [None; Some "token-1"; Some "token-2"] /\
    forall fuel',
      n_list
        (fst (exec scripted fuel' (list_training_jobs_with_next_token 0)
                (start (Finite []) p))) <= 3.
Proof.
  apply (lists_three_pages_with_tokens 0 (Finite [])
           (summary "job-1" "Completed") (summary "job-2" "Failed")
           (summary "job-3" "InProgress") (summary "job-4" "Completed")
           (summary "job-5" "Stopped") "token-1" "token-2");
    discriminate.
Defined.

(** C3, as worded, fails: with the empty string as the token of the first
    page, the loop stops after that page, 2 items and 1 list call in. *)
Lemma lists_one_page_on_empty_token : ~ lists_three_pages.
Proof.
  intros H.
  destruct (H 0%Z (Finite [])
              (summary "job-1" "Completed") (summary "job-2" "Failed")
              (summary "job-3" "InProgress") (summary "job-4" "Completed")
              (summary "job-5" "Stopped") "" "token-2")
    as (fuel & w & Hrun & _ & Hn).
  match type of Hrun with
  | exec scripted _ ?t ?w0 = _ =>
      assert (exec scripted 10 t w0 = (fst (exec scripted 10 t w0), Some tt))
        as Hend by (vm_compute; reflexivity);
      destruct (exec_deterministic scripted t w0 _ _ _ _ _ _ Hrun Hend)
        as [Hw _]
  end.
  rewrite Hw in Hn. vm_compute in Hn. discriminate Hn.
Qed.

(* ===================================================================== *)
(** * Create, then get *)
(* ===================================================================== *)

Lemma lookup_created (n : string) (job : training_job) :
  forall cp : ControlPlane.resources,
    ControlPlane.lookup n cp = None ->
    TrainingJobName job = n ->
    ControlPlane.lookup n (cp ++ [job]) = Some job.
Proof.
  unfold ControlPlane.lookup.
  induction cp as [|x cp IH]; intros Hnone Hname; cbn in *.
  - rewrite Hname, String.eqb_refl. reflexivity.
  - destruct (TrainingJobName x =? n); [discriminate|].
    apply IH; assumption.
Qed.

(** A resource that [get] finds carries the name it was asked for. *)
Lemma lookup_name (n : string) (cp : ControlPlane.resources)
  (job : training_job) :
  ControlPlane.lookup n cp = Some job -> TrainingJobName job = n.
Proof.
  unfold ControlPlane.lookup. intros H.
  apply find_some in H as [_ H]. apply String.eqb_eq. exact H.
Qed.

(** The create cell sends one request, under [job_name_boto], and prints
    the response. *)
Example create_run :
  let request := create_request "xgboost:1" "arn:aws:iam::role/sagemaker"
                   "s3://bucket/train" "s3://bucket/output"
                   "2024-06-01-12-00-00" in
  let response :=
    {| CreateTrainingJob.TrainingJobArn :=
         "arn:aws:sagemaker:training-job/xgboost-iris-2024-06-01-12-00-00" |} in
  let run :=
    exec scripted 5
      (create_training_job_boto3 "xgboost:1" "arn:aws:iam::role/sagemaker"
         "s3://bucket/train" "s3://bucket/output" "2024-06-01-12-00-00")
      {| creations := Finite [response]; snapshots := Finite [];
         pages := Finite []; n_create := 0; n_describe := 0; n_list := 0;
         log := [] |} in
  snd run = Some tt /\
  log (fst run) = [EvCreate request (Some response);
                   EvPrint [Dict response] newline] /\
  CreateTrainingJob.TrainingJobName request
    = job_name_boto "2024-06-01-12-00-00".
Proof. vm_compute. repeat split; reflexivity. Qed.

(** C9. Against the control plane of the specification: when [create]
    succeeds, the handle carries the name of the creation specification,
    and [get] by that name returns a snapshot whose name is the one used at
    creation, whatever other resources the control plane holds. *)
Theorem get_after_create (cp cp' : ControlPlane.resources)
  (spec : CreateTrainingJob.request) (h : ControlPlane.handle) :
  ControlPlane.create cp spec = inr (cp', h) ->
  ControlPlane.name h = CreateTrainingJob.TrainingJobName spec /\
  exists snap,
    ControlPlane.get cp' (ControlPlane.name h) = inr snap /\
    TrainingJobName snap = CreateTrainingJob.TrainingJobName spec.
Proof.
  unfold ControlPlane.create, ControlPlane.get.
  destruct (negb (ControlPlane.required_present spec)); [discriminate|].
  destruct (ControlPlane.lookup (CreateTrainingJob.TrainingJobName spec) cp)
    as [existing|] eqn:Hfresh; [discriminate|].
  intros H. injection H as <- <-. cbn [ControlPlane.name].
  split; [reflexivity|].
  rewrite (lookup_created _
             {| TrainingJobName := CreateTrainingJob.TrainingJobName spec;
                TrainingJobStatus := "InProgress";
                FailureReason := None |} cp Hfresh eq_refl).
  eexists. split; reflexivity.
Qed.

(** The request of the notebook's create cell, sent to a control plane
    that already holds another job: the job is then found under
    [job_name_boto], the name the wait loop describes it by. *)
Lemma get_after_create_witness :
  let spec := create_request "xgboost:1" "arn:aws:iam::role/sagemaker"
                "s3://bucket/train" "s3://bucket/output"
                "2024-06-01-12-00-00" in
  let name := job_name_boto "2024-06-01-12-00-00" in
  exists snap,
    ControlPlane.get ([completed] ++ [ {| TrainingJobName := name;
                                          TrainingJobStatus := "InProgress";
                                          FailureReason := None |} ])
      name = inr snap /\
    TrainingJobName snap = name.
Proof.
  cbv zeta.
  exact (proj2
           (get_after_create [completed] _
              (create_request "xgboost:1" "arn:aws:iam::role/sagemaker"
                 "s3://bucket/train" "s3://bucket/output"
                 "2024-06-01-12-00-00")
              {| ControlPlane.name := job_name_boto "2024-06-01-12-00-00";
                 ControlPlane.arn :=
                   ("training-job/"
                    ++ job_name_boto "2024-06-01-12-00-00")%string |}
              eq_refl)).
Defined.

(* ===================================================================== *)
(** * The deletion sweep: what it can reach *)
(* ===================================================================== *)

Lemma delete_each_invoked (deletes : Python.object -> bool)
  (l : list Python.object) :
  forall obj, In obj (fst (Python.delete_each deletes l)) -> In obj l.
Proof.
  induction l as [|x l IH]; intros obj; cbn; [tauto|].
  destruct (deletes x).
  - destruct (Python.delete_each deletes l) as [invoked ok]. cbn in *.
    intros [->|H]; [left; reflexivity|right; apply IH; exact H].
  - cbn. intros [->|[]]. left. reflexivity.
Qed.

(** A resource bound to the global [training_job] is deleted; the same
    kind of resource bound only to a local variable of the calling function
    is not, and neither is a global that is no SageMaker Core resource. *)
Example sweep_run :
  let resource n :=
    {| Python.id := n; Python.has_delete := true;
       Python.class_module := "sagemaker_core.main.resources" |} in
  let client :=
    {| Python.id := 7; Python.has_delete := false;
       Python.class_module := "botocore.client" |} in
  Python.delete_all_sagemaker_resources (fun _ => true)
    {| Python.module_globals :=
         [("client", client); ("training_job", resource 1)];
       Python.frames := [[("job_in_caller", resource 2)]] |}
  = ([resource 1], true).
Proof. reflexivity. Qed.

(** C10. In every execution of [delete_all_sagemaker_resources], from
    module level or from inside any other calls, [locals()] is evaluated in
    the function's own frame, where nothing is bound yet. So every object
    whose [delete()] is invoked is the value of a global variable (and has
    a [delete] attribute and a class of [sagemaker_core.main.resources]);
    an object bound only to a local variable of some call in progress is
    never passed to [delete()]. *)
Theorem sweep_reaches_globals_only (deletes : Python.object -> bool)
  (st : Python.interpreter) :
  Python.locals (Python.call [] st) = [] /\
  (forall obj,
      In obj (fst (Python.delete_all_sagemaker_resources deletes st)) ->
      In obj (Python.values (Python.globals st)) /\
      Python.has_delete obj = true /\
      Python.class_module obj = "sagemaker_core.main.resources") /\
  (forall obj,
      Python.bound_locally obj st ->
      ~ In obj (Python.values (Python.globals st)) ->
      ~ In obj (fst (Python.delete_all_sagemaker_resources deletes st))).
Proof.
  assert (forall obj,
      In obj (fst (Python.delete_all_sagemaker_resources deletes st)) ->
      In obj (Python.values (Python.globals st)) /\
      Python.has_delete obj = true /\
      Python.class_module obj = "sagemaker_core.main.resources") as Hin.
  { intros obj H.
    unfold Python.delete_all_sagemaker_resources,
      Python.delete_all_sagemaker_resources_body in H.
    apply delete_each_invoked in H. apply filter_In in H as [H Hkeep].
    cbn in H. apply andb_true_iff in Hkeep as [Hd Hm].
    apply String.eqb_eq in Hm. repeat split; assumption. }
  split; [reflexivity|]. split; [exact Hin|].
  intros obj _ Hnot H. apply Hnot. apply (Hin obj H).
Qed.

(* ===================================================================== *)
(** * More of the wait loop *)
(* ===================================================================== *)

Lemma elapsed_rounds (name : string) (polled : list training_job) :
  elapsed (flat_map (wait_round_events name) polled)
  = (5 * Z.of_nat (length polled))%Z.
Proof.
  induction polled as [|snap polled IH]; [reflexivity|].
  cbn [flat_map wait_round_events app elapsed length]. rewrite IH. lia.
Qed.

Lemma dashes_app (l1 l2 : list io_event) :
  dashes (l1 ++ l2) = dashes l1 + dashes l2.
Proof. unfold dashes. rewrite filter_app, length_app. reflexivity. Qed.

Lemma dashes_rounds (name : string) (polled : list training_job) :
  dashes (flat_map (wait_round_events name) polled) = length polled.
Proof.
  induction polled as [|snap polled IH]; [reflexivity|].
  cbn [flat_map]. rewrite dashes_app, IH. reflexivity.
Qed.

Lemma dashes_closing (snap : training_job) : dashes (wait_closing snap) = 0.
Proof.
  unfold wait_closing.
  destruct (TrainingJobStatus snap =? "Failed"); [|reflexivity].
  destruct (FailureReason snap) as [reason|]; [|reflexivity].
  unfold dashes. cbn [filter is_dash].
  replace (newline =? "") with false by reflexivity.
  rewrite andb_false_r. reflexivity.
Qed.

(** The snapshots behind [k] rounds that poll again. *)
Lemma polled_snapshots (s : feed training_job) (k : nat) :
  forall from,
    (forall j, j < k -> polls_on s (from + j) = true) ->
    exists polled,
      length polled = k /\
      (forall i, i < k -> served s (from + i) = nth_error polled i) /\
      Forall (fun snap => terminal snap = false) polled.
Proof.
  induction k as [|k IH]; intros from Hpoll.
  - exists []. repeat split; [|constructor]. intros i Hi. lia.
  - pose proof (Hpoll 0 ltac:(lia)) as H0. rewrite Nat.add_0_r in H0.
    unfold polls_on in H0.
    destruct (served s from) as [snap|] eqn:Hs; [|discriminate].
    apply negb_true_iff in H0.
    destruct (IH (S from)) as (polled & Hlen & Hnth & Hall).
    { intros j Hj. replace (S from + j) with (from + S j) by lia.
      apply Hpoll. lia. }
    exists (snap :: polled). repeat split.
    + cbn. rewrite Hlen. reflexivity.
    + intros [|i] Hi.
      * rewrite Nat.add_0_r. exact Hs.
      * replace (from + S i) with (S from + i) by lia.
        cbn [nth_error]. apply Hnth. lia.
    + constructor; assumption.
Qed.

Lemma wait_rounds_log (job_name : string) (k : nat) :
  forall w polled,
    length polled = k ->
    (forall i, i < k ->
               served (snapshots w) (n_describe w + i) = nth_error polled i) ->
    log (wait_rounds job_name k w)
    = log w ++ flat_map (wait_round_events job_name) polled.
Proof.
  induction k as [|k IH]; intros w polled Hlen Hnth.
  - destruct polled; [|discriminate]. cbn. rewrite app_nil_r. reflexivity.
  - destruct polled as [|snap polled]; [discriminate|].
    cbn [wait_rounds].
    destruct (wait_round_fields job_name w) as (E1 & _ & E2 & _ & E3).
    rewrite (IH (wait_round job_name w) polled).
    + rewrite E3. pose proof (Hnth 0 ltac:(lia)) as H0.
      rewrite Nat.add_0_r in H0. cbn [nth_error] in H0. rewrite H0.
      cbn [flat_map wait_round_events]. rewrite <- app_assoc. reflexivity.
    + cbn in Hlen. lia.
    + intros i Hi. rewrite E1, E2.
      replace (S (n_describe w) + i) with (n_describe w + S i) by lia.
      rewrite (Hnth (S i) ltac:(lia)). reflexivity.
Qed.

(** X1. The whole log of a run of the wait loop that has ended, whatever
    [rich] does with a text: one round of describe, dash and five seconds
    of sleep for each snapshot that was not terminal, in order, then the
    describe call that returned the terminal snapshot and what the loop
    prints on it. Such a run has ended with every [print] returning: no
    exception has left the cell from inside a call, and the loop's result
    is the one the terminal snapshot asks for. So the dashes and the
    seconds slept count the polls that came before the last one. *)
Theorem wait_log_of_ended_run (rich : renderer) (job_name : string)
  (s : feed training_job) (p : feed list_response)
  (fuel : nat) (k : kernel) (r : outcome) :
  exec (scripted_with rich) fuel (wait_for_training_job_boto3 job_name)
    (boot s p) = (k, Some r) ->
  exists polled last,
    (forall i, i < length polled -> served s i = nth_error polled i) /\
    Forall (fun snap => terminal snap = false) polled /\
    served s (length polled) = Some last /\
    terminal last = true /\
    log (plane k) = flat_map (wait_round_events job_name) polled
                    ++ EvDescribe job_name (Some last) :: wait_closing last /\
    r = wait_result last /\
    raised k = None /\
    dashes (log (plane k)) = length polled /\
    elapsed (log (plane k)) = (5 * Z.of_nat (length polled))%Z.
Proof.
  intros H.
  apply scripted_with_ended in H as [H Hraised].
  cbn [boot plane raised] in H, Hraised.
  apply wait_ends_inv in H as (n & last & Hpoll & Hs & Ht & Hw & ->).
  cbn [start snapshots n_describe plus] in Hpoll, Hs.
  destruct (polled_snapshots s n 0 Hpoll) as (polled & Hlen & Hnth & Hall).
  destruct (wait_rounds_fields job_name n (start s p)) as (E1 & _ & E2 & _).
  assert (log (plane k)
          = flat_map (wait_round_events job_name) polled
            ++ EvDescribe job_name (Some last) :: wait_closing last) as Hlog.
  { rewrite Hw, add_log_spec. cbn [log described record].
    rewrite E1, E2. cbn [start snapshots n_describe plus]. rewrite Hs.
    rewrite (wait_rounds_log job_name n (start s p) polled Hlen Hnth).
    cbn [start log app]. rewrite <- app_assoc. reflexivity. }
  exists polled, last. rewrite Hlen, Hlog.
  repeat split; try assumption.
  - rewrite dashes_app, dashes_rounds, Hlen.
    change (EvDescribe job_name (Some last) :: wait_closing last)
      with ([EvDescribe job_name (Some last)] ++ wait_closing last).
    rewrite dashes_app, dashes_closing. cbn. lia.
  - rewrite elapsed_app, elapsed_rounds, Hlen.
    change (EvDescribe job_name (Some last) :: wait_closing last)
      with ([EvDescribe job_name (Some last)] ++ wait_closing last).
    rewrite elapsed_app.
    assert (elapsed (wait_closing last) = 0%Z) as ->.
    { unfold wait_closing.
      destruct (TrainingJobStatus last =? "Failed"); [|reflexivity].
      destruct (FailureReason last); reflexivity. }
    cbn [elapsed]. lia.
Qed.

Lemma wait_log_of_ended_run_witness :
  let s := Finite [in_progress; in_progress;
                   failed_with "AlgorithmError: exit code 1"] in
  let run := exec (scripted_with refusing_closing_tags) 20
               (wait_for_training_job_boto3 "job") (boot s (Finite [])) in
  exists polled last,
    (forall i, i < length polled -> served s i = nth_error polled i) /\
    Forall (fun snap => terminal snap = false) polled /\
    served s (length polled) = Some last /\
    terminal last = true /\
    log (plane (fst run))
    = flat_map (wait_round_events "job") polled
      ++ EvDescribe "job" (Some last) :: wait_closing last /\
    Returned = wait_result last /\
    raised (fst run) = None /\
    dashes (log (plane (fst run))) = length polled /\
    elapsed (log (plane (fst run))) = (5 * Z.of_nat (length polled))%Z.
Proof.
  cbv zeta.
  apply (wait_log_of_ended_run refusing_closing_tags "job"
           (Finite [in_progress; in_progress;
                    failed_with "AlgorithmError: exit code 1"])
           (Finite []) 20).
  vm_compute. reflexivity.
Defined.

(** X2. When the wait loop ends on a snapshot whose status is not
    'Failed' (so 'Completed' or 'Stopped'), the cell ends normally and
    prints nothing after describing that snapshot, even when the snapshot
    carries a [FailureReason]. *)
Theorem wait_prints_nothing_unless_failed (job_name : string)
  (s : feed training_job) (p : feed list_response)
  (fuel : nat) (w : world) (r : outcome) (snap : training_job) :
  exec scripted fuel (wait_for_training_job_boto3 job_name) (start s p)
    = (w, Some r) ->
  last_snapshot (log w) = Some snap ->
  TrainingJobStatus snap <> "Failed" ->
  r = Returned /\
  (TrainingJobStatus snap = "Completed" \/
   TrainingJobStatus snap = "Stopped") /\
  exists pre, log w = pre ++ [EvDescribe job_name (Some snap)].
Proof.
  intros H Hlast Hstatus.
  apply wait_ends_inv in H as (k & snap' & _ & Hs & Ht & -> & ->).
  cbn [start snapshots n_describe plus] in Hs.
  destruct (wait_rounds_fields job_name k (start s p)) as (E1 & _ & E2 & _).
  rewrite add_log_spec in Hlast |- *. cbn [log described record] in Hlast |- *.
  rewrite E1, E2 in Hlast |- *.
  cbn [start snapshots n_describe plus] in Hlast |- *.
  rewrite Hs in Hlast |- *.
  rewrite !last_snapshot_app, last_snapshot_closing in Hlast.
  cbn in Hlast. injection Hlast as ->.
  apply String.eqb_neq in Hstatus.
  unfold wait_result, wait_closing. rewrite Hstatus.
  split; [reflexivity|]. split.
  - unfold terminal, py_in in Ht. cbn [existsb] in Ht.
    rewrite Hstatus in Ht. cbn [orb] in Ht.
    rewrite !orb_true_iff, !String.eqb_eq in Ht.
    destruct Ht as [Ht|[Ht|Ht]];
      [left; exact Ht|right; exact Ht|discriminate Ht].
  - exists (log (wait_rounds job_name k (start s p))).
    rewrite app_nil_r. reflexivity.
Qed.

Lemma wait_prints_nothing_unless_failed_witness :
  let stopped := {| TrainingJobName := "xgboost-iris";
                    TrainingJobStatus := "Stopped";
                    FailureReason := Some "stopped by the user" |} in
  let run := exec scripted 10 (wait_for_training_job_boto3 "job")
               (start (Finite [in_progress; stopped]) (Finite [])) in
  snd run = Some Returned /\
  exists pre, log (fst run) = pre ++ [EvDescribe "job" (Some stopped)].
Proof.
  cbv zeta.
  pose proof
    (wait_prints_nothing_unless_failed "job"
       (Finite [in_progress;
                {| TrainingJobName := "xgboost-iris";
                   TrainingJobStatus := "Stopped";
                   FailureReason := Some "stopped by the user" |}])
       (Finite []) 10
       (fst (exec scripted 10 (wait_for_training_job_boto3 "job")
               (start
                  (Finite [in_progress;
                           {| TrainingJobName := "xgboost-iris";
                              TrainingJobStatus := "Stopped";
                              FailureReason := Some "stopped by the user" |}])
                  (Finite []))))
       Returned
       {| TrainingJobName := "xgboost-iris";
          TrainingJobStatus := "Stopped";
          FailureReason := Some "stopped by the user" |}
       ltac:(vm_compute; reflexivity)
       ltac:(vm_compute; reflexivity)
       ltac:(discriminate)) as (_ & _ & H).
  split; [vm_compute; reflexivity|exact H].
Defined.

(* ===================================================================== *)
(** * More of the listing loop *)
(* ===================================================================== *)

Lemma printed_jobs_app (l1 l2 : list io_event) :
  printed_jobs (l1 ++ l2) = printed_jobs l1 ++ printed_jobs l2.
Proof.
  induction l1 as [|e l1 IH]; [reflexivity|].
  destruct e as [| | |objects end_|]; cbn; try exact IH.
  destruct objects as [|[name|d] [|[status|d'] [|o objects]]]; cbn;
    rewrite IH; reflexivity.
Qed.

Lemma printed_jobs_prints (jobs : list training_job) :
  printed_jobs (List.map ev_print_job jobs) = List.map job_line jobs.
Proof.
  induction jobs as [|job jobs IH]; [reflexivity|].
  cbn. rewrite IH. reflexivity.
Qed.

Lemma pages_received_app (l1 l2 : list io_event) :
  pages_received (l1 ++ l2) = pages_received l1 ++ pages_received l2.
Proof.
  induction l1 as [|e l1 IH]; [reflexivity|].
  destruct e as [| |? ? [page|]| |]; cbn; rewrite IH; reflexivity.
Qed.

Lemma pages_received_prints (jobs : list training_job) :
  pages_received (List.map ev_print_job jobs) = [].
Proof. induction jobs as [|job jobs IH]; [reflexivity|exact IH]. Qed.

Section ListLog.

Variable creation_time_after : Z.

#[local] Abbreviation list_from :=
  (list_training_jobs_from creation_time_after).

Lemma list_log_pages (responses : list list_response) :
  forall tok,
    pages_received (list_log creation_time_after tok responses) = responses.
Proof.
  induction responses as [|page rest IH]; intros tok; [reflexivity|].
  cbn [list_log pages_received]. rewrite pages_received_app.
  rewrite pages_received_prints, IH. reflexivity.
Qed.

Lemma list_log_printed (responses : list list_response) :
  forall tok,
    printed_jobs (list_log creation_time_after tok responses)
    = List.map job_line (jobs_of responses).
Proof.
  induction responses as [|page rest IH]; intros tok; [reflexivity|].
  cbn [list_log printed_jobs]. unfold jobs_of. cbn [flat_map].
  rewrite printed_jobs_app, printed_jobs_prints, IH, List.map_app.
  reflexivity.
Qed.

Lemma list_log_sent (front : list list_response) :
  forall tok last,
    Forall (fun page => truthy (NextToken page) = true) front ->
    tokens_sent (list_log creation_time_after tok (front ++ [last]))
    = token_sent tok :: List.map NextToken front.
Proof.
  induction front as [|page front IH]; intros tok last Hall;
    cbn [app list_log tokens_sent].
  - rewrite tokens_sent_app.
    destruct (tokens_of_prints (TrainingJobSummaries last)) as [-> _].
    reflexivity.
  - rewrite tokens_sent_app.
    destruct (tokens_of_prints (TrainingJobSummaries page)) as [-> _].
    inversion Hall as [|? ? Hpage Hfront]; subst.
    cbn [app]. rewrite (IH (NextToken page) last Hfront).
    unfold token_sent at 2. rewrite Hpage. reflexivity.
Qed.

(** A run of the listing loop that has ended received some pages with a
    true token and then one with a false token, and logged nothing else. *)
Lemma list_ends_inv (fuel : nat) :
  forall tok w w',
    exec scripted fuel (list_from tok) w = (w', Some tt) ->
    exists front last,
      (forall i page,
          nth_error (front ++ [last]) i = Some page ->
          served (pages w) (n_list w + i) = Some page) /\
      Forall (fun page => truthy (NextToken page) = true) front /\
      truthy (NextToken last) = false /\
      log w' = log w ++ list_log creation_time_after tok (front ++ [last]) /\
      n_list w' = n_list w + S (length front).
Proof.
  induction fuel as [fuel IH] using lt_wf_ind. intros tok w w' H.
  destruct fuel as [|f]; [discriminate|].
  destruct (served (pages w) (n_list w)) as [page|] eqn:Hs.
  2:{ rewrite (list_blocked creation_time_after f tok w Hs) in H.
      discriminate. }
  rewrite (list_page creation_time_after f tok w page Hs) in H.
  cbv zeta in H.
  destruct (truthy (NextToken page)) eqn:Htok.
  - destruct (f - length (TrainingJobSummaries page) - 1) as [|f'] eqn:Ef;
      [discriminate|].
    rewrite firstn_all2 in H by lia.
    fold (list_round creation_time_after tok page w) in H.
    apply IH in H; [|lia].
    destruct H as (front & last & Hnth & Hall & Hlast & Hlog & Hn).
    unfold list_round in Hnth, Hlog, Hn.
    destruct (printed_fields (TrainingJobSummaries page)
                (listed creation_time_after (token_sent tok) w))
      as (_ & E1 & _ & E2 & E3).
    rewrite E1, E2 in Hnth. rewrite E3 in Hlog. rewrite E2 in Hn.
    cbn [listed record pages n_list log] in Hnth, Hlog, Hn.
    rewrite Hs in Hlog.
    exists (page :: front), last. repeat split.
    + intros [|i] pg Hi.
      * rewrite Nat.add_0_r. cbn in Hi. congruence.
      * replace (n_list w + S i) with (S (n_list w) + i) by lia.
        apply Hnth. exact Hi.
    + constructor; assumption.
    + exact Hlast.
    + rewrite Hlog. cbn [app list_log]. rewrite <- !app_assoc. reflexivity.
    + cbn [length]. lia.
  - destruct (f <=? length (TrainingJobSummaries page))%nat eqn:Ef;
      [discriminate|].
    apply Nat.leb_gt in Ef. rewrite firstn_all2 in H by lia.
    injection H as <-.
    destruct (printed_fields (TrainingJobSummaries page)
                (listed creation_time_after (token_sent tok) w))
      as (_ & _ & _ & E2 & E3).
    exists [], page. repeat split.
    + intros [|[|i]] pg Hi; cbn in Hi; try discriminate.
      rewrite Nat.add_0_r. congruence.
    + constructor.
    + exact Htok.
    + rewrite E3. cbn [listed record log app list_log]. rewrite Hs.
      rewrite app_nil_r, <- app_assoc. reflexivity.
    + rewrite E2. cbn. lia.
Qed.

(** What the listing loop logs stays within its vocabulary. *)
Lemma list_vocabulary (fuel : nat) :
  forall tok w,
    Forall (list_event creation_time_after) (log w) ->
    Forall (list_event creation_time_after)
      (log (fst (exec scripted fuel (list_from tok) w))).
Proof.
  induction fuel as [fuel IH] using lt_wf_ind. intros tok w Hw.
  destruct fuel as [|f]; [rewrite exec_0; exact Hw|].
  assert (forall ans,
            list_event creation_time_after
              (EvList creation_time_after (token_sent tok) ans)) as Hcall.
  { intros ans. split; [reflexivity|]. unfold token_sent.
    destruct tok as [t|]; cbn; [|left; reflexivity].
    destruct (t =? "") eqn:E; cbn; [left; reflexivity|].
    right. exists t. split; [reflexivity|]. apply String.eqb_neq. exact E. }
  assert (forall jobs,
            Forall (list_event creation_time_after)
              (log (add_log (List.map ev_print_job jobs)
                      (listed creation_time_after (token_sent tok) w))))
    as Hprints.
  { intros jobs.
    destruct (printed_fields jobs
                (listed creation_time_after (token_sent tok) w))
      as (_ & _ & _ & _ & ->).
    cbn [listed record log].
    apply Forall_app. split.
    - apply Forall_app. split; [exact Hw|]. constructor; [apply Hcall|].
      constructor.
    - apply Forall_forall. intros e He. apply in_map_iff in He as (job & <- & _).
      reflexivity. }
  destruct (served (pages w) (n_list w)) as [page|] eqn:Hs.
  - rewrite (list_page creation_time_after f tok w page Hs). cbv zeta.
    destruct (truthy (NextToken page)).
    + apply IH; [lia|]. apply Hprints.
    + destruct (f <=? length (TrainingJobSummaries page))%nat; apply Hprints.
  - rewrite (list_blocked creation_time_after f tok w Hs).
    exact (Hprints []).
Qed.

End ListLog.

(** The lines printed by a run of the listing loop that has ended are
    the jobs of the pages it received. *)
Lemma listing_printed (creation_time_after : Z)
  (s : feed training_job) (p : feed list_response) (fuel : nat) (w : world) :
  exec scripted fuel
    (list_training_jobs_with_next_token creation_time_after) (start s p)
  = (w, Some tt) ->
  printed_jobs (log w)
  = List.map job_line (jobs_of (pages_received (log w))).
Proof.
  intros H.
  apply list_ends_inv in H as (front & last & _ & _ & _ & Hlog & _).
  cbn [start log app] in Hlog. rewrite Hlog.
  rewrite list_log_pages. apply list_log_printed.
Qed.

(** X3. The listing loop ends if and only if some page of the sequence
    comes with a token that is false in Python ([None] or [""]); and when
    every page comes with a true token, the list calls grow past any
    number. *)
Theorem listing_ends_iff_false_token (creation_time_after : Z)
  (s : feed training_job) (p : feed list_response) :
  ((exists fuel w,
       exec scripted fuel
         (list_training_jobs_with_next_token creation_time_after) (start s p)
       = (w, Some tt)) <->
   (exists n page,
       served p n = Some page /\ truthy (NextToken page) = false)) /\
  ((forall n, continues p n = true) ->
   forall k, exists fuel,
     k <= n_list
            (fst (exec scripted fuel
                    (list_training_jobs_with_next_token creation_time_after)
                    (start s p)))).
Proof.
  split; [split|].
  - intros (fuel & w & H).
    apply list_ends_inv in H as (front & last & Hnth & _ & Hlast & _).
    exists (length front), last. split; [|exact Hlast].
    apply (Hnth (length front) last). rewrite nth_error_app2 by lia.
    rewrite Nat.sub_diag. reflexivity.
  - intros (n & page & Hs & Hfalse).
    destruct (all_or_first_failure (continues p) (S n))
      as [Hall|(m & Hm & Hfail & Hbelow)].
    { specialize (Hall n ltac:(lia)). unfold continues in Hall.
      rewrite Hs in Hall. congruence. }
    assert (exists y, served p m = Some y) as (y & Hy).
    { destruct (Nat.eq_dec m n) as [->|Hne]; [exists page; exact Hs|].
      apply (served_prefix p n m page Hs). lia. }
    unfold continues in Hfail. rewrite Hy in Hfail.
    destruct (list_continues creation_time_after m None (start s p) Hbelow)
      as (P1 & P2 & P3).
    exists (list_cost (pages (start s p)) (n_list (start s p)) m
            + S (S (length (TrainingJobSummaries y)))).
    eexists. unfold list_training_jobs_with_next_token. rewrite P3.
    rewrite (list_page creation_time_after _ _ _ y).
    + cbv zeta. rewrite Hfail.
      replace (S (length (TrainingJobSummaries y))
               <=? length (TrainingJobSummaries y))%nat with false;
        [reflexivity|].
      symmetry. apply Nat.leb_gt. lia.
    + rewrite P1, P2. exact Hy.
  - intros Hall k.
    destruct k as [|[|i]].
    + exists 0. lia.
    + exists 1. unfold list_training_jobs_with_next_token.
      rewrite list_calls_once. cbn. lia.
    + destruct (list_goes_on creation_time_after s p i) as (fuel & Hn).
      { intros j _. apply Hall. }
      exists fuel. rewrite Hn. lia.
Qed.

(** X4. What a run of the listing loop that has ended has done: it
    received the pages of the sequence up to the first one with a false
    token, all the earlier ones having a true token; it printed the name
    and status of every job of these pages, page after page and in the
    order of each page; it sent no token first and then the token of each
    page but the last; and it made as many list calls as pages. No page
    beyond the first false token is asked for. *)
Theorem listing_output_of_ended_run (creation_time_after : Z)
  (s : feed training_job) (p : feed list_response) (fuel : nat) (w : world) :
  exec scripted fuel
    (list_training_jobs_with_next_token creation_time_after) (start s p)
  = (w, Some tt) ->
  exists front last,
    pages_received (log w) = front ++ [last] /\
    (forall i page,
        nth_error (front ++ [last]) i = Some page ->
        served p i = Some page) /\
    Forall (fun page => truthy (NextToken page) = true) front /\
    truthy (NextToken last) = false /\
    printed_jobs (log w) = List.map job_line (jobs_of (front ++ [last])) /\
    tokens_sent (log w) = None :: List.map NextToken front /\
    n_list w = length (front ++ [last]).
Proof.
  intros H.
  apply list_ends_inv in H as (front & last & Hnth & Hall & Hlast & Hlog & Hn).
  cbn [start log pages n_list app plus] in Hnth, Hlog, Hn.
  exists front, last. rewrite Hlog. repeat split; try assumption.
  - apply list_log_pages.
  - apply list_log_printed.
  - rewrite (list_log_sent creation_time_after front None last Hall).
    reflexivity.
  - rewrite Hn, length_app. cbn. lia.
Qed.

Lemma listing_output_of_ended_run_witness :
  let p := Finite
    [ {| TrainingJobSummaries := [summary "job-1" "Completed"];
         NextToken := Some "token-1" |};
      {| TrainingJobSummaries := [];
         NextToken := Some "token-2" |};
      {| TrainingJobSummaries := [summary "job-2" "Failed"];
         NextToken := Some "" |};
      {| TrainingJobSummaries := [summary "job-3" "Stopped"];
         NextToken := None |} ] in
  let w := fst (exec scripted 20 (list_training_jobs_with_next_token 0)
                  (start (Finite []) p)) in
  exists front last,
    pages_received (log w) = front ++ [last] /\
    (forall i page,
        nth_error (front ++ [last]) i = Some page ->
        served p i = Some page) /\
    Forall (fun page => truthy (NextToken page) = true) front /\
    truthy (NextToken last) = false /\
    printed_jobs (log w) = List.map job_line (jobs_of (front ++ [last])) /\
    tokens_sent (log w) = None :: List.map NextToken front /\
    n_list w = length (front ++ [last]).
Proof.
  cbv zeta.
  apply (listing_output_of_ended_run 0 (Finite []) _ 20).
  vm_compute. reflexivity.
Defined.

(** X5. At every point of every run of the listing loop: each list call
    carries the [CreationTimeAfter] the loop was given and never the empty
    string as a token; each print is one line of two strings; and the loop
    neither sleeps nor makes any other request, so pages are asked for
    back to back. *)
Theorem listing_stays_in_vocabulary (creation_time_after : Z)
  (s : feed training_job) (p : feed list_response) (fuel : nat) :
  let l := log (fst (exec scripted fuel
                       (list_training_jobs_with_next_token
                          creation_time_after)
                       (start s p))) in
  (forall after tok answer,
      In (EvList after tok answer) l ->
      after = creation_time_after /\ tok <> Some "") /\
  (forall objects end_,
      In (EvPrint objects end_) l ->
      end_ = newline /\
      exists name status, objects = [Str name; Str status]) /\
  (forall e,
      In e l ->
      match e with
      | EvList _ _ _ | EvPrint _ _ => True
      | EvCreate _ _ | EvDescribe _ _ | EvSleep _ => False
      end).
Proof.
  cbv zeta.
  pose proof (list_vocabulary creation_time_after fuel None (start s p)
                (Forall_nil _)) as H.
  fold (list_training_jobs_with_next_token creation_time_after) in H.
  rewrite Forall_forall in H.
  split; [|split].
  - intros after tok answer Hin. destruct (H _ Hin) as [Ha Htok].
    split; [exact Ha|].
    destruct Htok as [->|(t & -> & Ht)]; congruence.
  - intros objects end_ Hin. specialize (H _ Hin). cbn in H.
    destruct objects as [|[name|d] [|[status|d'] [|o objects]]];
      try contradiction.
    split; [exact H|]. exists name, status. reflexivity.
  - intros e He. specialize (H e He).
    destruct e as [| |a tok ans|objects end_|]; try exact I; try exact H.
Qed.

(* ===================================================================== *)
(** * The paginator cell *)
(* ===================================================================== *)

Lemma paginator_run (responses : list list_response) :
  forall w,
    exec scripted (S (length (jobs_of responses)))
      (list_training_jobs_with_paginator responses) w
    = (add_log (List.map ev_print_job (jobs_of responses)) w, Some tt).
Proof.
  unfold list_training_jobs_with_paginator, jobs_of.
  induction responses as [|page rest IH]; intros w; [reflexivity|].
  cbn [for_each flat_map].
  rewrite (exec_print_jobs (TrainingJobSummaries page)).
  rewrite length_app.
  replace (S (length (TrainingJobSummaries page)
              + length (flat_map TrainingJobSummaries rest))
           - length (TrainingJobSummaries page))
    with (S (length (flat_map TrainingJobSummaries rest))) by lia.
  rewrite firstn_all2 by lia.
  rewrite IH, List.map_app, add_log_app. reflexivity.
Qed.

(** X6. The paginator cell prints the name and status of every job of
    every page it is handed, in order, and nothing else. Handed the pages
    that a run of the NextToken loop received, it prints exactly the lines
    that loop printed. *)
Theorem paginator_prints_what_next_token_loop_prints
  (creation_time_after : Z) (s : feed training_job) (p : feed list_response)
  (fuel : nat) (w : world) :
  exec scripted fuel
    (list_training_jobs_with_next_token creation_time_after) (start s p)
  = (w, Some tt) ->
  exists fuel' w',
    exec scripted fuel'
      (list_training_jobs_with_paginator (pages_received (log w)))
      (start s p)
    = (w', Some tt) /\
    log w' = List.map ev_print_job (jobs_of (pages_received (log w))) /\
    printed_jobs (log w') = printed_jobs (log w).
Proof.
  intros H.
  pose proof (listing_printed creation_time_after s p fuel w H) as Hprinted.
  eexists. eexists. split; [apply paginator_run|].
  rewrite add_log_spec. cbn [log start app]. split; [reflexivity|].
  rewrite printed_jobs_prints. symmetry. exact Hprinted.
Qed.

Lemma paginator_prints_what_next_token_loop_prints_witness :
  let p := Finite
    [ {| TrainingJobSummaries :=
           [summary "job-1" "Completed"; summary "job-2" "Failed"];
         NextToken := Some "token-1" |};
      {| TrainingJobSummaries := [summary "job-3" "InProgress"];
         NextToken := None |} ] in
  let w := fst (exec scripted 20 (list_training_jobs_with_next_token 0)
                  (start (Finite []) p)) in
  exists fuel' w',
    exec scripted fuel'
      (list_training_jobs_with_paginator (pages_received (log w)))
      (start (Finite []) p)
    = (w', Some tt) /\
    log w' = List.map ev_print_job (jobs_of (pages_received (log w))) /\
    printed_jobs (log w') = printed_jobs (log w).
Proof.
  cbv zeta.
  apply (paginator_prints_what_next_token_loop_prints 0 (Finite []) _ 20).
  vm_compute. reflexivity.
Defined.

(* ===================================================================== *)
(** * The create cell followed by the wait cell *)
(* ===================================================================== *)

(** What the wait loop adds to a log stays within its vocabulary,
    whatever the log held before. *)
Lemma wait_extends (job_name : string) (fuel : nat) :
  forall w,
    exists ext,
      log (fst (exec scripted fuel
                  (wait_for_training_job_boto3 job_name) w))
      = log w ++ ext /\
      Forall (wait_event job_name) ext.
Proof.
  induction fuel as [fuel IH] using lt_wf_ind. intros w.
  destruct fuel as [|f].
  { rewrite exec_0. exists []. rewrite app_nil_r. split; [reflexivity|].
    constructor. }
  assert (forall l,
            Forall (wait_event job_name) l ->
            log (add_log l (described job_name w))
            = log w
              ++ EvDescribe job_name (served (snapshots w) (n_describe w))
                 :: l /\
            Forall (wait_event job_name)
              (EvDescribe job_name (served (snapshots w) (n_describe w))
                 :: l)) as Hadd.
  { intros l Hl. rewrite add_log_spec. unfold described, record. cbn [log].
    rewrite <- app_assoc. split; [reflexivity|].
    constructor; [reflexivity|exact Hl]. }
  assert (forall n l, Forall (wait_event job_name) l ->
            Forall (wait_event job_name) (firstn n l)) as Hfirst.
  { intros n l Hl. apply Forall_forall. intros e He.
    apply in_firstn in He. revert e He. apply Forall_forall. exact Hl. }
  destruct (served (snapshots w) (n_describe w)) as [snap|] eqn:Hs.
  2:{ rewrite (wait_blocked job_name f w Hs). cbn [fst].
      eexists. exact (Hadd [] (Forall_nil _)). }
  destruct (terminal snap) eqn:Ht.
  - rewrite (wait_stop job_name f w snap Hs Ht).
    assert (Forall (wait_event job_name) (wait_closing snap)) as Hc.
    { unfold wait_closing.
      destruct (TrainingJobStatus snap =? "Failed"); [|constructor].
      destruct (FailureReason snap); repeat constructor. }
    destruct (f <=? length (wait_closing snap))%nat; cbn [fst];
      eexists; apply Hadd; [apply Hfirst|]; exact Hc.
  - rewrite (wait_poll job_name f w snap Hs Ht).
    destruct (IH (f - 3) ltac:(lia)
                (add_log (firstn f [EvPrint [Str "-"] ""; EvSleep 5])
                   (described job_name w))) as (ext & Hlog & Hext).
    destruct (Hadd (firstn f [EvPrint [Str "-"] ""; EvSleep 5]))
      as [Hlog' Hall'].
    { apply Hfirst. repeat constructor. }
    rewrite Hlog, Hlog'. eexists. rewrite <- app_assoc. split; [reflexivity|].
    cbn [app]. inversion Hall' as [|? ? Hd Hrest]; subst.
    constructor; [exact Hd|]. apply Forall_app. split; assumption.
Qed.

(** X11. The create cell followed by the wait cell, at every point of
    every run: nothing is logged yet, or the first thing logged is the one
    create request, made under [job_name_boto]. When that request does not
    return, nothing follows it: the job is never described. When it
    returns a response, what follows, once anything does, is the print of
    that very response and then only the wait loop's describe calls for
    that same name, its prints and its sleeps of five seconds. *)
Theorem create_then_wait_polls_created_job
  (image role s3_input_path s3_output_path gmtime : string)
  (fuel : nat) (w0 : world) :
  let request :=
    create_request image role s3_input_path s3_output_path gmtime in
  let answer := served (creations w0) (n_create w0) in
  let l := log (fst (exec scripted fuel
                       (create_then_wait image role s3_input_path
                          s3_output_path gmtime) w0)) in
  l = log w0 \/
  exists rest,
    l = log w0 ++ EvCreate request answer :: rest /\
    CreateTrainingJob.TrainingJobName request = job_name_boto gmtime /\
    match answer with
    | None => rest = []
    | Some response =>
        rest = [] \/
        exists ext,
          rest = EvPrint [Dict response] newline :: ext /\
          Forall (wait_event (job_name_boto gmtime)) ext
    end.
Proof.
  cbv zeta.
  destruct fuel as [|f]; [left; reflexivity|]. right.
  set (request :=
         create_request image role s3_input_path s3_output_path gmtime).
  assert (exec scripted (S f)
            (create_then_wait image role s3_input_path s3_output_path gmtime)
            w0
          = match served (creations w0) (n_create w0) with
            | Some response =>
                exec scripted f
                  (ITree.trigger (print [Dict response] newline) ;;
                   wait_for_training_job_boto3 (job_name_boto gmtime))
                  (created request w0)
            | None => (created request w0, None)
            end) as Hcreate.
  { unfold create_then_wait, create_training_job_boto3.
    rewrite bind_bind. answer. fold request.
    destruct (served (creations w0) (n_create w0)); reflexivity. }
  rewrite Hcreate. clear Hcreate.
  destruct (served (creations w0) (n_create w0)) as [response|] eqn:Ha.
  - destruct f as [|f].
    + rewrite exec_0. exists []. cbn [fst created record log].
      rewrite Ha.
      split; [reflexivity|]. split; [reflexivity|].
      left. reflexivity.
    + assert (exec scripted (S f)
                (ITree.trigger (print [Dict response] newline) ;;
                 wait_for_training_job_boto3 (job_name_boto gmtime))
                (created request w0)
              = exec scripted f
                  (wait_for_training_job_boto3 (job_name_boto gmtime))
                  (record (EvPrint [Dict response] newline)
                     (created request w0))) as Hprint.
      { answer. reflexivity. }
      rewrite Hprint. clear Hprint.
      destruct (wait_extends (job_name_boto gmtime) f
                  (record (EvPrint [Dict response] newline)
                     (created request w0)))
        as (ext & Hlog & Hext).
      exists (EvPrint [Dict response] newline :: ext).
      rewrite Hlog. cbn [record created log]. rewrite Ha.
      rewrite <- !app_assoc.
      split; [reflexivity|]. split; [reflexivity|].
      right. exists ext. split; [reflexivity|exact Hext].
  - exists []. cbn [fst created record log]. rewrite Ha.
    split; [reflexivity|]. split; reflexivity.
Qed.

(* ===================================================================== *)
(** * More of the deletion sweep *)
(* ===================================================================== *)

Lemma delete_each_all (deletes : Python.object -> bool)
  (l : list Python.object) :
  (forall obj, In obj l -> deletes obj = true) ->
  Python.delete_each deletes l = (l, true).
Proof.
  induction l as [|x l IH]; intros H; [reflexivity|].
  cbn. rewrite (H x (or_introl eq_refl)), IH; [reflexivity|].
  intros obj Hin. apply H. right. exact Hin.
Qed.

Lemma delete_each_raises (deletes : Python.object -> bool)
  (before : list Python.object) :
  forall x after,
    (forall obj, In obj before -> deletes obj = true) ->
    deletes x = false ->
    Python.delete_each deletes (before ++ x :: after) = (before ++ [x], false).
Proof.
  induction before as [|y before IH]; intros x after Hok Hx; cbn.
  - rewrite Hx. reflexivity.
  - rewrite (Hok y (or_introl eq_refl)), (IH x after); [reflexivity| |exact Hx].
    intros obj Hin. apply Hok. right. exact Hin.
Qed.

(** X7. When no [delete()] raises, the sweep invokes [delete()] on
    exactly the values of the global variables that have a [delete]
    attribute and a class of [sagemaker_core.main.resources], in the order
    the globals were bound and once for each variable bound to them (an
    object held by two global variables is deleted twice), and it runs to
    its end. Nothing depends on the calls in progress. *)
Theorem sweep_deletes_every_global_resource
  (deletes : Python.object -> bool) (st : Python.interpreter) :
  (forall obj,
      In obj (Python.values (Python.globals st)) ->
      Python.has_delete obj = true ->
      Python.class_module obj = "sagemaker_core.main.resources" ->
      deletes obj = true) ->
  Python.delete_all_sagemaker_resources deletes st
  = (filter (fun obj =>
               Python.has_delete obj &&
               (Python.class_module obj =? "sagemaker_core.main.resources"))
       (Python.values (Python.globals st)),
     true).
Proof.
  intros Hok.
  unfold Python.delete_all_sagemaker_resources,
    Python.delete_all_sagemaker_resources_body.
  cbn [Python.locals Python.call Python.frames Python.values List.map app
       Python.globals Python.module_globals].
  apply delete_each_all. intros obj Hin.
  apply filter_In in Hin as [Hin Hkeep].
  apply andb_true_iff in Hkeep as [Hd Hm]. apply String.eqb_eq in Hm.
  apply Hok; assumption.
Qed.

Lemma sweep_deletes_every_global_resource_witness :
  let job :=
    {| Python.id := 1; Python.has_delete := true;
       Python.class_module := "sagemaker_core.main.resources" |} in
  let client :=
    {| Python.id := 2; Python.has_delete := false;
       Python.class_module := "botocore.client" |} in
  Python.delete_all_sagemaker_resources (fun _ => true)
    {| Python.module_globals :=
         [("training_job", job); ("client", client); ("same_job", job)];
       Python.frames := [] |}
  = ([job; job], true).
Proof.
  cbv zeta.
  apply (sweep_deletes_every_global_resource (fun _ => true)
           {| Python.module_globals :=
                [("training_job",
                  {| Python.id := 1; Python.has_delete := true;
                     Python.class_module :=
                       "sagemaker_core.main.resources" |});
                 ("client",
                  {| Python.id := 2; Python.has_delete := false;
                     Python.class_module := "botocore.client" |});
                 ("same_job",
                  {| Python.id := 1; Python.has_delete := true;
                     Python.class_module :=
                       "sagemaker_core.main.resources" |})];
              Python.frames := [] |}).
  intros obj _ _ _. reflexivity.
Defined.

(** X8. When a [delete()] raises, the sweep stops there: the resources
    that come before the failing one in the order of the globals have been
    deleted, [delete()] has been invoked on the failing one, and it is
    invoked on none of the resources that come after it. *)
Theorem sweep_stops_at_first_failure
  (deletes : Python.object -> bool) (st : Python.interpreter)
  (before after : list Python.object) (failing : Python.object) :
  filter (fun obj =>
            Python.has_delete obj &&
            (Python.class_module obj =? "sagemaker_core.main.resources"))
    (Python.values (Python.globals st))
  = before ++ failing :: after ->
  (forall obj, In obj before -> deletes obj = true) ->
  deletes failing = false ->
  Python.delete_all_sagemaker_resources deletes st
  = (before ++ [failing], false).
Proof.
  intros Hsplit Hok Hfail.
  unfold Python.delete_all_sagemaker_resources,
    Python.delete_all_sagemaker_resources_body.
  cbn [Python.locals Python.call Python.frames Python.values List.map app
       Python.globals Python.module_globals].
  unfold Python.values, Python.globals in Hsplit. rewrite Hsplit.
  apply delete_each_raises; assumption.
Qed.

Lemma sweep_stops_at_first_failure_witness :
  let resource n :=
    {| Python.id := n; Python.has_delete := true;
       Python.class_module := "sagemaker_core.main.resources" |} in
  Python.delete_all_sagemaker_resources
    (fun obj => negb (Python.id obj =? 2)%nat)
    {| Python.module_globals :=
         [("job_a", resource 1); ("job_b", resource 2);
          ("job_c", resource 3)];
       Python.frames := [] |}
  = ([resource 1; resource 2], false).
Proof.
  cbv zeta.
  apply (sweep_stops_at_first_failure
           (fun obj => negb (Python.id obj =? 2)%nat)
           {| Python.module_globals :=
                [("job_a",
                  {| Python.id := 1; Python.has_delete := true;
                     Python.class_module :=
                       "sagemaker_core.main.resources" |});
                 ("job_b",
                  {| Python.id := 2; Python.has_delete := true;
                     Python.class_module :=
                       "sagemaker_core.main.resources" |});
                 ("job_c",
                  {| Python.id := 3; Python.has_delete := true;
                     Python.class_module :=
                       "sagemaker_core.main.resources" |})];
              Python.frames := [] |}
           [{| Python.id := 1; Python.has_delete := true;
               Python.class_module := "sagemaker_core.main.resources" |}]
           [{| Python.id := 3; Python.has_delete := true;
               Python.class_module := "sagemaker_core.main.resources" |}]
           {| Python.id := 2; Python.has_delete := true;
              Python.class_module := "sagemaker_core.main.resources" |}).
  - reflexivity.
  - intros obj [<-|[]]. reflexivity.
  - reflexivity.
Defined.

(* ===================================================================== *)
(** * The data cells *)
(* ===================================================================== *)

Lemma filter_without_target (columns : list string) :
  ~ In "target" columns ->
  filter (fun col => negb (col =? "target")) columns = columns.
Proof.
  induction columns as [|c columns IH]; intros Hnot; [reflexivity|].
  cbn. destruct (c =? "target") eqn:E.
  - apply String.eqb_eq in E. exfalso. apply Hnot. left. exact E.
  - cbn. rewrite IH; [reflexivity|]. intros Hin. apply Hnot. right. exact Hin.
Qed.

Lemma filter_target_twice (columns : list string) :
  filter (fun col => negb (col =? "target"))
    (filter (fun col => negb (col =? "target")) columns)
  = filter (fun col => negb (col =? "target")) columns.
Proof.
  induction columns as [|c columns IH]; [reflexivity|].
  cbn. destruct (c =? "target") eqn:E; cbn; [exact IH|].
  rewrite E. cbn. rewrite IH. reflexivity.
Qed.

(** X9. The column list of the Prepare Data cell, for a frame whose
    labels are distinct and include ["target"]: ["target"] comes first,
    the other columns follow in the order they had, no column is lost or
    doubled, and running the cell again on its own result changes
    nothing. *)
Theorem reorder_columns_moves_target_first (columns : list string) :
  NoDup columns ->
  In "target" columns ->
  hd_error (reorder_columns columns) = Some "target" /\
  Permutation columns (reorder_columns columns) /\
  filter (fun col => negb (col =? "target")) (reorder_columns columns)
    = filter (fun col => negb (col =? "target")) columns /\
  reorder_columns (reorder_columns columns) = reorder_columns columns.
Proof.
  intros Hnodup Hin. unfold reorder_columns. cbn [app].
  split; [reflexivity|]. split; [|split].
  - induction columns as [|c columns IH]; [destruct Hin|].
    inversion Hnodup as [|? ? Hc Hrest]; subst.
    cbn [filter]. destruct (c =? "target") eqn:E.
    + apply String.eqb_eq in E. subst c. cbn [negb].
      rewrite filter_without_target by exact Hc. reflexivity.
    + cbn [negb]. destruct Hin as [Heq|Hin].
      * apply String.eqb_neq in E. contradiction.
      * apply perm_trans with (c :: "target"
                                 :: filter (fun col => negb (col =? "target"))
                                      columns).
        -- apply perm_skip. apply IH; assumption.
        -- apply perm_swap.
  - cbn [filter]. replace ("target" =? "target") with true by reflexivity.
    cbn [negb]. apply filter_target_twice.
  - cbn [filter]. replace ("target" =? "target") with true by reflexivity.
    cbn [negb]. rewrite filter_target_twice. reflexivity.
Qed.

Lemma reorder_columns_moves_target_first_witness :
  let columns := ["sepal length (cm)"; "sepal width (cm)";
                  "petal length (cm)"; "petal width (cm)"; "target"] in
  hd_error (reorder_columns columns) = Some "target" /\
  Permutation columns (reorder_columns columns) /\
  filter (fun col => negb (col =? "target")) (reorder_columns columns)
    = filter (fun col => negb (col =? "target")) columns /\
  reorder_columns (reorder_columns columns) = reorder_columns columns.
Proof.
  cbv zeta.
  apply (reorder_columns_moves_target_first
           ["sepal length (cm)"; "sepal width (cm)";
            "petal length (cm)"; "petal width (cm)"; "target"]).
  - repeat constructor; cbn; intuition discriminate.
  - cbn. tauto.
Defined.

Lemma string_app_assoc (a b c : string) :
  ((a ++ b) ++ c)%string = (a ++ (b ++ c))%string.
Proof.
  induction a as [|ch a IH]; [reflexivity|].
  cbn. rewrite IH. reflexivity.
Qed.

(** X10. The paths of the Upload Data cell agree: the training input
    path is the bucket, the key prefix handed to [upload_data], and the
    name of the training file, so it names the object the upload stores;
    and a default bucket prefix that is [None] or empty leaves the prefix
    ["DEMO-scikit-iris"], while any other one is put in front of it
    with a slash. *)
Theorem upload_paths_agree (bucket : string)
  (default_bucket_prefix : option string) :
  Upload.s3_input_path bucket default_bucket_prefix
  = ("s3://" ++ bucket ++ "/" ++ Upload.key_prefix default_bucket_prefix
     ++ "/" ++ Upload.TRAIN_DATA)%string /\
  (default_bucket_prefix = None \/ default_bucket_prefix = Some "" ->
   Upload.s3_input_path bucket default_bucket_prefix
   = ("s3://" ++ bucket ++ "/DEMO-scikit-iris/data/train.csv")%string /\
   Upload.s3_output_path bucket default_bucket_prefix
   = ("s3://" ++ bucket ++ "/DEMO-scikit-iris/output")%string) /\
  (forall d,
      default_bucket_prefix = Some d -> d <> "" ->
      Upload.s3_input_path bucket default_bucket_prefix
      = ("s3://" ++ bucket ++ "/" ++ d
         ++ "/DEMO-scikit-iris/data/train.csv")%string /\
      Upload.s3_output_path bucket default_bucket_prefix
      = ("s3://" ++ bucket ++ "/" ++ d
         ++ "/DEMO-scikit-iris/output")%string).
Proof.
  split; [|split].
  - unfold Upload.s3_input_path, Upload.key_prefix.
    do 3 f_equal. rewrite string_app_assoc. reflexivity.
  - intros Hfalse. apply falsy_token in Hfalse.
    unfold Upload.s3_input_path, Upload.s3_output_path, Upload.prefix.
    rewrite Hfalse. split; reflexivity.
  - intros d -> Hd.
    unfold Upload.s3_input_path, Upload.s3_output_path, Upload.prefix.
    cbn [truthy Upload.str]. apply String.eqb_neq in Hd. rewrite Hd.
    cbn [negb]. rewrite !string_app_assoc. split; reflexivity.
Qed.
